(** * moderngl.Framebuffer: the Python wrapper over the internal [mglo] object

    Shallow embedding of [src/moderngl/framebuffer.py].  Every method of
    the class reshapes its arguments in Python and then crosses into the
    internal object [self.mglo]; the embedding keeps the two sides apart:

    - the Python side (objects, slots, [tuple(...)], star-unpacking,
      exceptions) is modelled directly from the source;
    - the internal object is an interface ([Driver]) with one entry per
      attribute or method the wrapper touches.  Every crossing is appended
      to a trace, so that "before any driver call" is a statement about the
      trace. *)

From Stdlib Require Import ZArith List String Lia.
From Stdlib Require Import Floats.SpecFloat.
From Stdlib Require Import DecimalString DecimalZ.
From stdpp Require Import base option list gmap.

Import ListNotations.
Local Open Scope Z_scope.
Set Warnings "-register-all".

(** ** Python values *)

(** The classes whose instances flow through the wrapper. *)
Inductive pyclass : Type :=
| ClsFramebuffer
| ClsContext
| ClsBuffer
| ClsTexture
| ClsRenderbuffer
| ClsBytearray
| ClsMglo.

(** Object identity. *)
Abbreviation ref := positive.

Inductive pyval : Type :=
| PyNone
| PyBool (b : bool)
| PyInt (n : Z)
| PyFloat (f : spec_float)
| PyStr (s : string)
| PyTuple (elems : list pyval)
| PyList (elems : list pyval)
| PyObject (cls : pyclass) (id : ref).

Inductive exn : Type :=
| TypeError
| ValueError
| AttributeError
| IndexError
| SystemError
| MglError (msg : string).

Inductive result (A : Type) : Type :=
| Ok (a : A)
| Raise (e : exn).
Arguments Ok {A} a.
Arguments Raise {A} e.

(** The float literals of the source, [0.0] and [1.0], as binary64 values. *)
Definition f0_0 : pyval := PyFloat (S754_zero false).
Definition f1_0 : pyval := PyFloat (S754_finite false 4503599627370496 (-52)).

(** [tuple(x)]: the elements of an iterable, [TypeError] for anything else.
    An object is a class and an identity here, without content: what
    iterating an object would give is not followed (see [not_iterable] for
    the values that are known not to be iterable). *)
Definition tuple (x : pyval) : result (list pyval) :=
  match x with
  | PyTuple elems => Ok elems
  | PyList elems => Ok elems
  | PyStr s =>
      Ok (List.map (fun c => PyStr (String c EmptyString)) (list_ascii_of_string s))
  | _ => Raise TypeError
  end.

(** [x[i]] for a literal index [i >= 0]. *)
Definition getitem (x : pyval) (i : nat) : result pyval :=
  match x with
  | PyTuple elems | PyList elems =>
      match nth_error elems i with
      | Some v => Ok v
      | None => Raise IndexError
      end
  | PyStr s =>
      match String.get i s with
      | Some c => Ok (PyStr (String c EmptyString))
      | None => Raise IndexError
      end
  | _ => Raise TypeError
  end.

(** [a, b, c, d, *_ = t]: needs at least four values. *)
Definition unpack4_star (t : list pyval) : result (pyval * pyval * pyval * pyval) :=
  match t with
  | a :: b :: c :: d :: _ => Ok (a, b, c, d)
  | _ => Raise ValueError
  end.

(** ** Objects on the Python heap *)

(** An instance of [Framebuffer]: the eight [__slots__].  A slot that was
    never assigned is [None] here (reading it raises [AttributeError]). *)
Record FramebufferObj : Type := mkFramebuffer {
  mglo : option pyval;
  _color_attachments : option pyval;
  _depth_attachment : option pyval;
  _size : option pyval;
  _samples : option pyval;
  _glo : option pyval;
  ctx : option pyval;
  extra : option pyval;
}.

Definition blank : FramebufferObj :=
  mkFramebuffer None None None None None None None None.

Definition set_mglo (v : pyval) (o : FramebufferObj) : FramebufferObj :=
  mkFramebuffer (Some v) (_color_attachments o) (_depth_attachment o) (_size o)
                (_samples o) (_glo o) (ctx o) (extra o).
Definition set_color_attachments (v : pyval) (o : FramebufferObj) : FramebufferObj :=
  mkFramebuffer (mglo o) (Some v) (_depth_attachment o) (_size o)
                (_samples o) (_glo o) (ctx o) (extra o).
Definition set_depth_attachment (v : pyval) (o : FramebufferObj) : FramebufferObj :=
  mkFramebuffer (mglo o) (_color_attachments o) (Some v) (_size o)
                (_samples o) (_glo o) (ctx o) (extra o).
Definition set_size (v : pyval) (o : FramebufferObj) : FramebufferObj :=
  mkFramebuffer (mglo o) (_color_attachments o) (_depth_attachment o) (Some v)
                (_samples o) (_glo o) (ctx o) (extra o).
Definition set_samples (v : pyval) (o : FramebufferObj) : FramebufferObj :=
  mkFramebuffer (mglo o) (_color_attachments o) (_depth_attachment o) (_size o)
                (Some v) (_glo o) (ctx o) (extra o).
Definition set_glo (v : pyval) (o : FramebufferObj) : FramebufferObj :=
  mkFramebuffer (mglo o) (_color_attachments o) (_depth_attachment o) (_size o)
                (_samples o) (Some v) (ctx o) (extra o).
Definition set_ctx (v : pyval) (o : FramebufferObj) : FramebufferObj :=
  mkFramebuffer (mglo o) (_color_attachments o) (_depth_attachment o) (_size o)
                (_samples o) (_glo o) (Some v) (extra o).
Definition set_extra (v : pyval) (o : FramebufferObj) : FramebufferObj :=
  mkFramebuffer (mglo o) (_color_attachments o) (_depth_attachment o) (_size o)
                (_samples o) (_glo o) (ctx o) (Some v).

(** The fields the class exposes through read-only properties. *)
Definition fixed_fields (o : FramebufferObj) :
  option pyval * option pyval * option pyval * option pyval * option pyval :=
  (_size o, _samples o, _glo o, _color_attachments o, _depth_attachment o).

(** A [Context], as far as this file touches it: the attribute [fbo]. *)
Record ContextObj : Type := mkContext { fbo : pyval }.

(** A [Buffer], as far as this file touches it: the attribute [mglo]. *)
Record BufferObj : Type := mkBuffer { buffer_mglo : pyval }.

(** ** The boundary to the internal object *)

(** One constructor per attribute access or method call on [self.mglo]. *)
Inductive mglo_call : Type :=
| Get_viewport
| Set_viewport (value : pyval)
| Get_scissor
| Set_scissor (value : pyval)
| Get_color_mask
| Set_color_mask (value : pyval)
| Get_depth_mask
| Set_depth_mask (value : pyval)
| Get_bits
| Call_clear (red green blue alpha depth viewport : pyval)
| Call_use
| Call_read (viewport components attachment alignment dtype : pyval)
| Call_read_into (buffer viewport components attachment alignment dtype write_offset : pyval)
| Call_release.

(** What lies behind the boundary: a state [D] and the effect of each
    crossing on it, addressed by the identity of the internal object. *)
Class Driver (D : Type) : Type :=
  mglo_exec : ref -> mglo_call -> D -> result pyval * D.

(** ** The world and its monad *)

Record world (D : Type) : Type := mkWorld {
  framebuffers : gmap positive FramebufferObj;
  contexts : gmap positive ContextObj;
  buffers : gmap positive BufferObj;
  driver : D;
  calls : list (ref * mglo_call);
}.
Arguments mkWorld {D}.
Arguments framebuffers {D}.
Arguments contexts {D}.
Arguments buffers {D}.
Arguments driver {D}.
Arguments calls {D}.

(** State that survives an exception: what was mutated before the [raise]
    stays mutated. *)
Definition M (D A : Type) : Type := world D -> result A * world D.

Definition ret {D A} (a : A) : M D A := fun w => (Ok a, w).
Definition raise {D A} (e : exn) : M D A := fun w => (Raise e, w).
Definition lift {D A} (r : result A) : M D A := fun w => (r, w).
Definition bind {D A B} (m : M D A) (k : A -> M D B) : M D B :=
  fun w =>
    match m w with
    | (Ok a, w') => k a w'
    | (Raise e, w') => (Raise e, w')
    end.

Notation "'let!' x ':=' m 'in' k" := (bind m (fun x => k))
  (at level 10, x name, m at level 100, k at level 200).
Notation "'let!' ' p ':=' m 'in' k" := (bind m (fun x => match x with p => k end))
  (at level 10, p pattern, m at level 100, k at level 200).
Notation "'do!' m 'in' k" := (bind m (fun _ => k))
  (at level 10, m at level 100, k at level 200).

Definition with_framebuffers {D} (f : gmap positive FramebufferObj) (w : world D) : world D :=
  mkWorld f (contexts w) (buffers w) (driver w) (calls w).
Definition with_contexts {D} (c : gmap positive ContextObj) (w : world D) : world D :=
  mkWorld (framebuffers w) c (buffers w) (driver w) (calls w).

(** [self.<slot>] on a [Framebuffer]. *)
Definition getattr {D} (slot : FramebufferObj -> option pyval) (self : ref) : M D pyval :=
  fun w =>
    match framebuffers w !! self with
    | Some o =>
        match slot o with
        | Some v => (Ok v, w)
        | None => (Raise AttributeError, w)
        end
    | None => (Raise SystemError, w)
    end.

(** [self.<slot> = v] on a [Framebuffer]. *)
Definition setattr {D} (upd : pyval -> FramebufferObj -> FramebufferObj)
    (self : ref) (v : pyval) : M D unit :=
  fun w =>
    match framebuffers w !! self with
    | Some o => (Ok tt, with_framebuffers (<[self := upd v o]> (framebuffers w)) w)
    | None => (Raise SystemError, w)
    end.

(** [target.fbo = v]: only a [Context] has the attribute. *)
Definition setattr_fbo {D} (target v : pyval) : M D unit :=
  match target with
  | PyObject ClsContext c =>
      fun w =>
        match contexts w !! c with
        | Some _ => (Ok tt, with_contexts (<[c := mkContext v]> (contexts w)) w)
        | None => (Raise SystemError, w)
        end
  | _ => raise AttributeError
  end.

(** The world after a crossing: the driver's new state, one more entry in
    the trace, the Python heap as it was. *)
Definition crossed {D} `{!Driver D} (h : ref) (c : mglo_call) (w : world D) : world D :=
  mkWorld (framebuffers w) (contexts w) (buffers w)
          (snd (mglo_exec h c (driver w))) (calls w ++ [(h, c)]).

(** An attribute access or method call on [target].  It is followed into an
    internal object; [None] has none of the attributes.  What an object of
    another class would answer is not followed: the statements that depend on
    it are made for [plain] instances. *)
Definition call_mglo {D} `{!Driver D} (target : pyval) (c : mglo_call) : M D pyval :=
  match target with
  | PyObject ClsMglo h => fun w => (fst (mglo_exec h c (driver w)), crossed h c w)
  | _ => raise AttributeError
  end.

(** What a method that ends in a bare call gives back: [None] when the call
    returns, the call's exception when it raises. *)
Definition returning_none (r : result pyval) : result pyval :=
  match r with
  | Ok _ => Ok PyNone
  | Raise e => Raise e
  end.

(** ** Identity and formatting *)

(** [a is b].  Objects, [None] and the two booleans have an identity that
    the values determine; values of different types are never identical.
    Whether two equal numbers, strings or containers are one object depends
    on how they were allocated, which the model does not track: no answer. *)
Definition is_ (a b : pyval) : option bool :=
  match a, b with
  | PyNone, PyNone => Some true
  | PyBool x, PyBool y => Some (Bool.eqb x y)
  | PyObject c i, PyObject c' j =>
      Some (match c, c' with
            | ClsFramebuffer, ClsFramebuffer
            | ClsContext, ClsContext
            | ClsBuffer, ClsBuffer
            | ClsTexture, ClsTexture
            | ClsRenderbuffer, ClsRenderbuffer
            | ClsBytearray, ClsBytearray
            | ClsMglo, ClsMglo => Pos.eqb i j
            | _, _ => false
            end)
  | PyInt _, PyInt _
  | PyFloat _, PyFloat _
  | PyStr _, PyStr _
  | PyTuple _, PyTuple _
  | PyList _, PyList _ => None
  | _, _ => Some false
  end.

(** What a [%] formatting gives: the string, an exception, or
    [OverflowError] (which [exn] does not list). *)
Inductive formatted : Type :=
| Formatted (s : string)
| FormatRaise (e : exn)
| FormatOverflow.

(** [int(f)] for a float: truncation towards zero. *)
Definition trunc (f : spec_float) : formatted + Z :=
  match f with
  | S754_zero _ => inr 0
  | S754_infinity _ => inl FormatOverflow
  | S754_nan => inl (FormatRaise ValueError)
  | S754_finite s m e =>
      let a := Z.shiftl (Z.pos m) e in
      inr (if s then - a else a)
  end.

(** The decimal digits [%d] prints for an integer. *)
Definition decimal (n : Z) : string := NilEmpty.string_of_int (Z.to_int n).

(** One [%d] conversion: integers and booleans as they are, floats
    truncated, [TypeError] for everything else (none of the classes here
    defines [__int__] or [__index__]). *)
Definition percent_d (v : pyval) : formatted :=
  match v with
  | PyInt n => Formatted (decimal n)
  | PyBool b => Formatted (decimal (if b then 1 else 0))
  | PyFloat f =>
      match trunc f with
      | inr n => Formatted (decimal n)
      | inl r => r
      end
  | _ => FormatRaise TypeError
  end.

(** [prefix + '%d' + suffix % x]: a tuple on the right is the argument
    list and must hold exactly one value; anything else is the one value. *)
Definition format_d (prefix suffix : string) (x : pyval) : formatted :=
  match
    match x with
    | PyTuple [v] => percent_d v
    | PyTuple _ => FormatRaise TypeError
    | _ => percent_d x
    end
  with
  | Formatted digits => Formatted (prefix ++ digits ++ suffix)
  | r => r
  end.

(** ** class Framebuffer *)

Module Framebuffer.
Section Methods.
Context {D : Type} `{!Driver D}.

(** [def __init__(self)]: assigns the eight slots, then raises. *)
Definition __init__ (self : ref) : M D pyval :=
  do! setattr set_mglo self PyNone in
  do! setattr set_color_attachments self PyNone in
  do! setattr set_depth_attachment self PyNone in
  do! setattr set_size self (PyTuple [PyNone; PyNone]) in
  do! setattr set_samples self PyNone in
  do! setattr set_glo self PyNone in
  do! setattr set_ctx self PyNone in
  do! setattr set_extra self PyNone in
  raise TypeError.

(** [Framebuffer(args..., kwargs...)]: [object.__new__] makes an instance with
    empty slots, then [__init__] is called with the arguments.  The signature
    [__init__(self)] takes none, so binding any argument raises [TypeError]
    before the body runs. *)
Definition construct (args : list pyval) (kwargs : list (string * pyval)) : M D pyval :=
  let! self := (fun w =>
                  let r := fresh (dom (framebuffers w)) in
                  (Ok r, with_framebuffers (<[r := blank]> (framebuffers w)) w)) in
  match args, kwargs with
  | [], [] =>
      do! __init__ self in
      ret (PyObject ClsFramebuffer self)
  | _, _ => raise TypeError
  end.

(** [viewport] property: [return self.mglo.viewport]. *)
Definition viewport (self : ref) : M D pyval :=
  let! m := getattr mglo self in
  call_mglo m Get_viewport.

(** [viewport] setter: [self.mglo.viewport = tuple(value)]. *)
Definition viewport_setter (self : ref) (value : pyval) : M D pyval :=
  let! t := lift (tuple value) in
  let! m := getattr mglo self in
  do! call_mglo m (Set_viewport (PyTuple t)) in
  ret PyNone.

(** [scissor] property: [return self.mglo.scissor]. *)
Definition scissor (self : ref) : M D pyval :=
  let! m := getattr mglo self in
  call_mglo m Get_scissor.

(** [scissor] setter: [None] goes through as it is, anything else through
    [tuple(value)]. *)
Definition scissor_setter (self : ref) (value : pyval) : M D pyval :=
  match value with
  | PyNone =>
      let! m := getattr mglo self in
      do! call_mglo m (Set_scissor PyNone) in
      ret PyNone
  | _ =>
      let! t := lift (tuple value) in
      let! m := getattr mglo self in
      do! call_mglo m (Set_scissor (PyTuple t)) in
      ret PyNone
  end.

Definition color_mask (self : ref) : M D pyval :=
  let! m := getattr mglo self in
  call_mglo m Get_color_mask.

Definition color_mask_setter (self : ref) (value : pyval) : M D pyval :=
  let! m := getattr mglo self in
  do! call_mglo m (Set_color_mask value) in
  ret PyNone.

Definition depth_mask (self : ref) : M D pyval :=
  let! m := getattr mglo self in
  call_mglo m Get_depth_mask.

Definition depth_mask_setter (self : ref) (value : pyval) : M D pyval :=
  let! m := getattr mglo self in
  do! call_mglo m (Set_depth_mask value) in
  ret PyNone.

(** [width]: [return self._size[0]]. *)
Definition width (self : ref) : M D pyval :=
  let! s := getattr _size self in
  lift (getitem s 0).

(** [height]: [return self._size[1]]. *)
Definition height (self : ref) : M D pyval :=
  let! s := getattr _size self in
  lift (getitem s 1).

Definition size (self : ref) : M D pyval := getattr _size self.
Definition samples (self : ref) : M D pyval := getattr _samples self.

Definition bits (self : ref) : M D pyval :=
  let! m := getattr mglo self in
  call_mglo m Get_bits.

Definition color_attachments (self : ref) : M D pyval := getattr _color_attachments self.
Definition depth_attachment (self : ref) : M D pyval := getattr _depth_attachment self.
Definition glo (self : ref) : M D pyval := getattr _glo self.

(** [clear], first statement: [if color is not None: red, green, blue,
    alpha, *_ = tuple(color) + (0.0, 0.0, 0.0, 0.0)]. *)
Definition clear_channels (red green blue alpha color : pyval)
    : result (pyval * pyval * pyval * pyval) :=
  match color with
  | PyNone => Ok (red, green, blue, alpha)
  | _ =>
      match tuple color with
      | Ok t => unpack4_star (t ++ [f0_0; f0_0; f0_0; f0_0])
      | Raise e => Raise e
      end
  end.

(** [clear], second statement: [if viewport is not None: viewport =
    tuple(viewport)]. *)
Definition clear_viewport (viewport : pyval) : result pyval :=
  match viewport with
  | PyNone => Ok PyNone
  | _ =>
      match tuple viewport with
      | Ok t => Ok (PyTuple t)
      | Raise e => Raise e
      end
  end.

(** The body of [clear], all seven parameters bound; the last statement is
    [self.mglo.clear(red, green, blue, alpha, depth, viewport)]. *)
Definition clear (self : ref)
    (red green blue alpha depth viewport color : pyval) : M D pyval :=
  let! '(red, green, blue, alpha) := lift (clear_channels red green blue alpha color) in
  let! viewport := lift (clear_viewport viewport) in
  let! m := getattr mglo self in
  do! call_mglo m (Call_clear red green blue alpha depth viewport) in
  ret PyNone.

(** A call [self.clear(positional..., viewport=viewport, color=color)]
    against the signature
    [clear(self, red=0.0, green=0.0, blue=0.0, alpha=0.0, depth=1.0, *,
           viewport=None, color=None)]. *)
Definition clear_call (self : ref) (positional : list pyval)
    (viewport color : pyval) : M D pyval :=
  match positional with
  | [] => clear self f0_0 f0_0 f0_0 f0_0 f1_0 viewport color
  | [r] => clear self r f0_0 f0_0 f0_0 f1_0 viewport color
  | [r; g] => clear self r g f0_0 f0_0 f1_0 viewport color
  | [r; g; b] => clear self r g b f0_0 f1_0 viewport color
  | [r; g; b; a] => clear self r g b a f1_0 viewport color
  | [r; g; b; a; d] => clear self r g b a d viewport color
  | _ => raise TypeError
  end.

(** [use]: [self.ctx.fbo = self], then [self.mglo.use()]. *)
Definition use (self : ref) : M D pyval :=
  let! c := getattr ctx self in
  do! setattr_fbo c (PyObject ClsFramebuffer self) in
  let! m := getattr mglo self in
  do! call_mglo m Call_use in
  ret PyNone.

Definition read (self : ref)
    (viewport components attachment alignment dtype : pyval) : M D pyval :=
  let! m := getattr mglo self in
  call_mglo m (Call_read viewport components attachment alignment dtype).

(** [read_into]: a [Buffer] is replaced by its internal object first. *)
Definition read_into (self : ref)
    (buffer viewport components attachment alignment dtype write_offset : pyval)
    : M D pyval :=
  let! buffer :=
    match buffer with
    | PyObject ClsBuffer b =>
        fun w =>
          match buffers w !! b with
          | Some o => (Ok (buffer_mglo o), w)
          | None => (Raise SystemError, w)
          end
    | _ => ret buffer
    end in
  let! m := getattr mglo self in
  call_mglo m (Call_read_into buffer viewport components attachment alignment
                              dtype write_offset).

Definition release (self : ref) : M D pyval :=
  let! m := getattr mglo self in
  do! call_mglo m Call_release in
  ret PyNone.

(** [self.extra = value]: the one public attribute that is written from
    outside. *)
Definition extra_setter (self : ref) (value : pyval) : M D pyval :=
  do! setattr set_extra self value in
  ret PyNone.

(** [__eq__]: [return type(self) is type(other) and self.mglo is
    other.mglo].  The second operand of [and] is evaluated only when the
    first is true. *)
Definition __eq__ (self : ref) (other : pyval) : M D pyval :=
  match other with
  | PyObject ClsFramebuffer o =>
      let! a := getattr mglo self in
      let! b := getattr mglo o in
      match is_ a b with
      | Some r => ret (PyBool r)
      | None => raise SystemError
      end
  | _ => ret (PyBool false)
  end.

(** [__repr__]: [return '<Framebuffer: %d>' % self.glo]. *)
Definition __repr__ (self : ref) (w : world D) : formatted :=
  match fst (glo self w) with
  | Ok v => format_d "<Framebuffer: " ">" v
  | Raise e => FormatRaise e
  end.

End Methods.
End Framebuffer.

(** ** The public surface of the class *)

Inductive operation : Type :=
| Construct (args : list pyval) (kwargs : list (string * pyval))
| GetViewport (self : ref)
| SetViewport (self : ref) (value : pyval)
| GetScissor (self : ref)
| SetScissor (self : ref) (value : pyval)
| GetColorMask (self : ref)
| SetColorMask (self : ref) (value : pyval)
| GetDepthMask (self : ref)
| SetDepthMask (self : ref) (value : pyval)
| GetWidth (self : ref)
| GetHeight (self : ref)
| GetSize (self : ref)
| GetSamples (self : ref)
| GetBits (self : ref)
| GetColorAttachments (self : ref)
| GetDepthAttachment (self : ref)
| GetGlo (self : ref)
| Clear (self : ref) (positional : list pyval) (viewport color : pyval)
| Use (self : ref)
| Read (self : ref) (viewport components attachment alignment dtype : pyval)
| ReadInto (self : ref)
    (buffer viewport components attachment alignment dtype write_offset : pyval)
| Release (self : ref)
| SetExtra (self : ref) (value : pyval).

Definition perform {D} `{!Driver D} (op : operation) : M D pyval :=
  match op with
  | Construct args kwargs => Framebuffer.construct args kwargs
  | GetViewport self => Framebuffer.viewport self
  | SetViewport self v => Framebuffer.viewport_setter self v
  | GetScissor self => Framebuffer.scissor self
  | SetScissor self v => Framebuffer.scissor_setter self v
  | GetColorMask self => Framebuffer.color_mask self
  | SetColorMask self v => Framebuffer.color_mask_setter self v
  | GetDepthMask self => Framebuffer.depth_mask self
  | SetDepthMask self v => Framebuffer.depth_mask_setter self v
  | GetWidth self => Framebuffer.width self
  | GetHeight self => Framebuffer.height self
  | GetSize self => Framebuffer.size self
  | GetSamples self => Framebuffer.samples self
  | GetBits self => Framebuffer.bits self
  | GetColorAttachments self => Framebuffer.color_attachments self
  | GetDepthAttachment self => Framebuffer.depth_attachment self
  | GetGlo self => Framebuffer.glo self
  | Clear self positional vp col => Framebuffer.clear_call self positional vp col
  | Use self => Framebuffer.use self
  | Read self vp n att al dt => Framebuffer.read self vp n att al dt
  | ReadInto self buf vp n att al dt off =>
      Framebuffer.read_into self buf vp n att al dt off
  | Release self => Framebuffer.release self
  | SetExtra self v => Framebuffer.extra_setter self v
  end.

(** A program is a sequence of operations; an exception ends the one
    operation, not the program (the caller may catch it). *)
Fixpoint run {D} `{!Driver D} (ops : list operation) (w : world D) : world D :=
  match ops with
  | [] => w
  | op :: rest => run rest (snd (perform op w))
  end.

(** What a call does, seen from outside: its result, the Python heap after
    it and the driver state after it.  The trace of crossings is left out:
    it records how the wrapper spoke to the internal object, not what
    happened. *)
Definition behaviour {D A} (x : result A * world D)
    : result A * gmap positive FramebufferObj * gmap positive ContextObj
      * gmap positive BufferObj * D :=
  (fst x, framebuffers (snd x), contexts (snd x), buffers (snd x), driver (snd x)).

(** The instance an operation is called on; construction has none yet. *)
Definition receiver (op : operation) : option ref :=
  match op with
  | Construct _ _ => None
  | GetViewport self | SetViewport self _ | GetScissor self | SetScissor self _
  | GetColorMask self | SetColorMask self _ | GetDepthMask self | SetDepthMask self _
  | GetWidth self | GetHeight self | GetSize self | GetSamples self | GetBits self
  | GetColorAttachments self | GetDepthAttachment self | GetGlo self
  | Clear self _ _ _ | Use self | Read self _ _ _ _ _ | ReadInto self _ _ _ _ _ _ _
  | Release self | SetExtra self _ => Some self
  end.

(** The operations whose body touches [self.mglo]. *)
Definition crosses (op : operation) : bool :=
  match op with
  | GetViewport _ | SetViewport _ _ | GetScissor _ | SetScissor _ _
  | GetColorMask _ | SetColorMask _ _ | GetDepthMask _ | SetDepthMask _ _
  | GetBits _ | Clear _ _ _ _ | Use _ | Read _ _ _ _ _ _
  | ReadInto _ _ _ _ _ _ _ _ | Release _ => true
  | _ => false
  end.

(** From [w] to [w'] the driver was left alone, or it was entered exactly
    once, through the internal object of the instance [self]. *)
Definition crossed_at_most_once {D} `{!Driver D} (self : option ref)
    (w w' : world D) : Prop :=
  (calls w' = calls w /\ driver w' = driver w) \/
  exists r o h c,
    self = Some r /\
    framebuffers w !! r = Some o /\
    mglo o = Some (PyObject ClsMglo h) /\
    calls w' = calls w ++ [(h, c)] /\
    driver w' = snd (mglo_exec h c (driver w)).

(** A computation that leaves one component of the world as it found it,
    whether it returns or raises. *)
Definition unchanged {D A X} (proj : world D -> X) (m : M D A) : Prop :=
  forall w, proj (snd (m w)) = proj w.

(** Two states of an instance that differ at most in [extra]. *)
Definition same_but_extra (o o' : FramebufferObj) : Prop :=
  o' = o \/ exists v, o' = set_extra v o.

(** What ties an instance to the rest: its internal object and its context. *)
Definition binding (o : FramebufferObj) : option pyval * option pyval :=
  (mglo o, ctx o).

(** The instance [__init__] leaves behind. *)
Definition wiped : FramebufferObj :=
  mkFramebuffer (Some PyNone) (Some PyNone) (Some PyNone)
                (Some (PyTuple [PyNone; PyNone])) (Some PyNone) (Some PyNone)
                (Some PyNone) (Some PyNone).

(** A slot as the factory or [__init__] fill it: unset, [None], or an object
    of the class the slot is meant for. *)
Definition slot_plain (cls : pyclass) (s : option pyval) : Prop :=
  s = None \/ s = Some PyNone \/ exists i, s = Some (PyObject cls i).

(** An instance whose [mglo] is nothing but an internal object and whose
    [ctx] is nothing but a context. *)
Definition plain (o : FramebufferObj) : Prop :=
  slot_plain ClsMglo (mglo o) /\ slot_plain ClsContext (ctx o).

(** A world all of whose framebuffers are plain. *)
Definition well_formed {D} (w : world D) : Prop :=
  forall r o, framebuffers w !! r = Some o -> plain o.

(** The values that cannot be iterated: [None], booleans, numbers, and
    framebuffers (the class defines neither [__iter__] nor [__getitem__]). *)
Definition not_iterable (v : pyval) : Prop :=
  match v with
  | PyNone | PyBool _ | PyInt _ | PyFloat _ | PyObject ClsFramebuffer _ => True
  | _ => False
  end.

(** ** Frame conditions *)

(** Every framebuffer of [w] is still there in [w'], with the same
    [_size], [_samples], [_glo], [_color_attachments], [_depth_attachment]. *)
Definition keeps_fixed {D} (w w' : world D) : Prop :=
  forall r o,
    framebuffers w !! r = Some o ->
    exists o', framebuffers w' !! r = Some o' /\ fixed_fields o' = fixed_fields o.

Definition preserving {D A} (m : M D A) : Prop :=
  forall w, keeps_fixed w (snd (m w)).

(** The channels a colour sequence stands for, in the words of the
    specification: its first four components, padded on the right with
    [0.0]. *)
Definition pad4 (t : list pyval) : list pyval :=
  firstn 4 t ++ repeat f0_0 (4 - length t)%nat.

(** ** The internal framebuffer object *)

Module MglSpec.

(** A rectangle [(x, y, width, height)] in pixels. *)
Abbreviation box := (Z * Z * Z * Z)%type.

(** Modelled from the spec: the state of the internal framebuffer object
    behind [mglo], whose code (the native extension) is not among the Python
    sources.  Data model of the spec: size, viewport rectangle, scissor
    rectangle, per-channel colour write mask, depth write mask, bit depths.
    The scissor is kept as a rectangle: "null disables scissor test and is
    equivalent to setting it to the full framebuffer size". *)
Record MGLFramebuffer : Type := mkMGL {
  mgl_width : Z;
  mgl_height : Z;
  mgl_viewport : box;
  mgl_scissor : box;
  mgl_color_mask : pyval;
  mgl_depth_mask : pyval;
  mgl_bits : pyval;
}.

(** Modelled from the spec: what the internal object issues to the GPU.  A
    clear goes out against the planes of all attachments with the region it
    is scoped to; a pixel transfer goes out with its arguments. *)
Inductive gl_command : Type :=
| GlClear (target : ref) (red green blue alpha depth : pyval) (region : box)
| GlReadPixels (target : ref) (request : mglo_call).

(** Modelled from the spec: the driver session.  [readback] stands for the
    GPU's image memory as a function of the commands issued so far; pixel
    contents are not modelled further. *)
Record gl : Type := mkGl {
  objects : gmap positive MGLFramebuffer;
  bound : option ref;
  commands : list gl_command;
  readback : list gl_command -> ref -> mglo_call -> result pyval;
}.

Definition full_box (o : MGLFramebuffer) : box := (0, 0, mgl_width o, mgl_height o).

Definition tuple_of_box (b : box) : pyval :=
  let '(x, y, w, h) := b in PyTuple [PyInt x; PyInt y; PyInt w; PyInt h].

(** Modelled from the spec: a rectangle argument is a 4-tuple (section 4.1,
    "any 4-element sequence, coerced to a tuple"; section 7, a wrong tuple
    length is a misuse error) of pixel coordinates. *)
Definition box_of (v : pyval) : option box :=
  match v with
  | PyTuple [PyInt x; PyInt y; PyInt w; PyInt h] => Some (x, y, w, h)
  | _ => None
  end.

(** Modelled from the spec: "If viewport is a 2-tuple (w, h) it is normalized
    to (0, 0, w, h); if a 4-tuple, used verbatim; if None, the framebuffer's
    persistent scissor setting governs." *)
Definition resolve_viewport (o : MGLFramebuffer) (v : pyval) : option box :=
  match v with
  | PyNone => Some (mgl_scissor o)
  | PyTuple [PyInt w; PyInt h] => Some (0, 0, w, h)
  | PyTuple [PyInt x; PyInt y; PyInt w; PyInt h] => Some (x, y, w, h)
  | _ => None
  end.

Definition with_object (h : ref) (o : MGLFramebuffer) (g : gl) : gl :=
  mkGl (<[h := o]> (objects g)) (bound g) (commands g) (readback g).

Definition issue (c : gl_command) (g : gl) : gl :=
  mkGl (objects g) (bound g) (commands g ++ [c]) (readback g).

(** Modelled from the spec: the effect of each crossing (section 4.1).
    - [viewport]: get returns the current 4-tuple; set stores a 4-tuple
      without range validation.
    - [scissor]: as [viewport]; [None] sets the full-size box.
    - [color_mask] / [depth_mask]: no validation, stored as given.
    - [bits]: as reported at creation.
    - [clear]: issues one clear scoped to the resolved viewport.
    - [use]: this framebuffer becomes the bound render target.
    - [read] / [read_into]: a pixel transfer, or a driver error.
    - [release]: invalidates the handle; a released handle only errors. *)
Definition exec (h : ref) (c : mglo_call) (g : gl) : result pyval * gl :=
  match objects g !! h with
  | None => (Raise (MglError "released"), g)
  | Some o =>
      match c with
      | Get_viewport => (Ok (tuple_of_box (mgl_viewport o)), g)
      | Set_viewport v =>
          match box_of v with
          | Some b =>
              (Ok PyNone,
               with_object h (mkMGL (mgl_width o) (mgl_height o) b (mgl_scissor o)
                                    (mgl_color_mask o) (mgl_depth_mask o) (mgl_bits o)) g)
          | None => (Raise (MglError "viewport"), g)
          end
      | Get_scissor => (Ok (tuple_of_box (mgl_scissor o)), g)
      | Set_scissor v =>
          match (match v with PyNone => Some (full_box o) | _ => box_of v end) with
          | Some b =>
              (Ok PyNone,
               with_object h (mkMGL (mgl_width o) (mgl_height o) (mgl_viewport o) b
                                    (mgl_color_mask o) (mgl_depth_mask o) (mgl_bits o)) g)
          | None => (Raise (MglError "scissor"), g)
          end
      | Get_color_mask => (Ok (mgl_color_mask o), g)
      | Set_color_mask v =>
          (Ok PyNone,
           with_object h (mkMGL (mgl_width o) (mgl_height o) (mgl_viewport o)
                                (mgl_scissor o) v (mgl_depth_mask o) (mgl_bits o)) g)
      | Get_depth_mask => (Ok (mgl_depth_mask o), g)
      | Set_depth_mask v =>
          (Ok PyNone,
           with_object h (mkMGL (mgl_width o) (mgl_height o) (mgl_viewport o)
                                (mgl_scissor o) (mgl_color_mask o) v (mgl_bits o)) g)
      | Get_bits => (Ok (mgl_bits o), g)
      | Call_clear r gr b a d v =>
          match resolve_viewport o v with
          | Some region => (Ok PyNone, issue (GlClear h r gr b a d region) g)
          | None => (Raise (MglError "viewport"), g)
          end
      | Call_use => (Ok PyNone, mkGl (objects g) (Some h) (commands g) (readback g))
      | Call_read _ _ _ _ _ | Call_read_into _ _ _ _ _ _ _ =>
          match readback g (commands g) h c with
          | Ok v => (Ok v, issue (GlReadPixels h c) g)
          | Raise e => (Raise e, g)
          end
      | Call_release =>
          (Ok PyNone, mkGl (delete h (objects g)) (bound g) (commands g) (readback g))
      end
  end.

#[export] Instance spec_driver : Driver gl := exec.

(** Modelled from the spec: what the Context factory (not among the sources)
    hands out: "performs the actual driver-level allocation and populates the
    instance's immutable fields before returning it".  The instance [self]
    wraps a live internal object whose size is the instance's [_size]. *)
Definition factory_made (w : world gl) (self : ref) (W H : Z) : Prop :=
  exists o h m,
    framebuffers w !! self = Some o /\
    mglo o = Some (PyObject ClsMglo h) /\
    _size o = Some (PyTuple [PyInt W; PyInt H]) /\
    objects (driver w) !! h = Some m /\
    mgl_width m = W /\ mgl_height m = H.

End MglSpec.

(** ** A concrete world

    One context (object 1) with two framebuffers made by its factory:
    object 2, 256 x 256, over internal object 3, and object 4, 64 x 32,
    over internal object 5. *)

Module Example.
Import MglSpec.

Definition all_channels : pyval :=
  PyTuple [PyBool true; PyBool true; PyBool true; PyBool true].

Definition session : gl :=
  mkGl (<[5%positive := mkMGL 64 32 (0, 0, 64, 32) (0, 0, 64, 32)
                               all_channels (PyBool true) (PyStr "8888/24")]>
        {[3%positive := mkMGL 256 256 (0, 0, 256, 256) (0, 0, 256, 256)
                               all_channels (PyBool true) (PyStr "8888/24")]})
       None [] (fun _ _ _ => Raise (MglError "unsupported")).

Definition fb_256 : FramebufferObj :=
  mkFramebuffer (Some (PyObject ClsMglo 3)) (Some (PyTuple [PyObject ClsTexture 7]))
                (Some PyNone) (Some (PyTuple [PyInt 256; PyInt 256]))
                (Some (PyInt 0)) (Some (PyInt 1))
                (Some (PyObject ClsContext 1)) (Some PyNone).

Definition fb_64 : FramebufferObj :=
  mkFramebuffer (Some (PyObject ClsMglo 5)) (Some (PyTuple [PyObject ClsRenderbuffer 8]))
                (Some (PyObject ClsRenderbuffer 9)) (Some (PyTuple [PyInt 64; PyInt 32]))
                (Some (PyInt 4)) (Some (PyInt 2))
                (Some (PyObject ClsContext 1)) (Some PyNone).

Definition w0 : world gl :=
  mkWorld (<[4%positive := fb_64]> {[2%positive := fb_256]})
          {[1%positive := mkContext PyNone]}
          ∅ session [].

(** The same world with a second Python object (6) around internal object
    3, and a buffer (7) over internal object 11. *)
Definition w1 : world gl :=
  mkWorld (<[6%positive := fb_256]> (framebuffers w0)) (contexts w0)
          {[7%positive := mkBuffer (PyObject ClsMglo 11)]}
          (driver w0) (calls w0).

(** A session that goes through the public surface, on both framebuffers. *)
Definition program : list operation :=
  [SetViewport 2 (PyTuple [PyInt 0; PyInt 0; PyInt 8; PyInt 8]);
   SetScissor 2 PyNone;
   SetColorMask 2 (PyBool false);
   Clear 2 [f1_0] (PyTuple [PyInt 4; PyInt 4]) PyNone;
   Use 4;
   SetExtra 2 (PyInt 7);
   Construct [PyInt 1] [];
   Construct [] [];
   Read 2 PyNone (PyInt 3) (PyInt 0) (PyInt 1) (PyStr "f1");
   Release 2;
   Use 2].

End Example.

(** ** examples/next/05_perspective_projection.py *)

Module PerspectiveProjection.

(** The float literals [32.0] and [-32.0]. *)
Definition f32_0 : pyval := PyFloat (S754_finite false 4503599627370496 (-47)).
Definition fm32_0 : pyval := PyFloat (S754_finite true 4503599627370496 (-47)).

(** The body of [for i in range(...)]: two [grid.append]. *)
Definition grid_body (grid : list pyval) (i : Z) : list pyval :=
  (grid ++ [PyList [PyInt (i - 32); fm32_0; f0_0; PyInt (i - 32); f32_0; f0_0]])
  ++ [PyList [fm32_0; PyInt (i - 32); f0_0; f32_0; PyInt (i - 32); f0_0]].

(** [grid = []] followed by the loop over [range(n)]. *)
Definition grid_upto (n : nat) : list pyval :=
  fold_left grid_body (List.map Z.of_nat (seq 0 n)) [].

(** The grid of the example: [range(65)]. *)
Definition grid : list pyval := grid_upto 65.

(** The count given to [self.vao.render(mgl.LINES, 65 * 4)]. *)
Definition render_vertices : Z := 65 * 4.

(** The number of scalars in a list of rows. *)
Definition scalars (rows : list pyval) : nat :=
  list_sum (List.map (fun row => match row with
                                 | PyList l | PyTuple l => length l
                                 | _ => 0%nat
                                 end) rows).

End PerspectiveProjection.

(** * Properties *)

(** ** Stepping through the monad *)

Section Steps.
Context {D : Type} `{!Driver D}.

Lemma bind_ok {A B} (m : M D A) (k : A -> M D B) (w w' : world D) (a : A) :
  m w = (Ok a, w') -> bind m k w = k a w'.
Proof. intros E. unfold bind. now rewrite E. Qed.

Lemma bind_raise {A B} (m : M D A) (k : A -> M D B) (w w' : world D) (e : exn) :
  m w = (Raise e, w') -> bind m k w = (Raise e, w').
Proof. intros E. unfold bind. now rewrite E. Qed.

Lemma bind_unfold {A B} (m : M D A) (k : A -> M D B) (w : world D) :
  bind m k w
  = match m w with
    | (Ok a, w') => k a w'
    | (Raise e, w') => (Raise e, w')
    end.
Proof. reflexivity. Qed.

Lemma getattr_hit (slot : FramebufferObj -> option pyval) (self : ref)
    (w : world D) (o : FramebufferObj) (v : pyval) :
  framebuffers w !! self = Some o -> slot o = Some v ->
  getattr slot self w = (Ok v, w).
Proof. intros Ho Hv. unfold getattr. now rewrite Ho, Hv. Qed.

Lemma setattr_hit (upd : pyval -> FramebufferObj -> FramebufferObj) (self : ref)
    (v : pyval) (w : world D) (o : FramebufferObj) :
  framebuffers w !! self = Some o ->
  setattr upd self v w
  = (Ok tt, with_framebuffers (<[self := upd v o]> (framebuffers w)) w).
Proof. intros Ho. unfold setattr. now rewrite Ho. Qed.

(** [__init__] on an allocated instance: the slots are overwritten, the
    exception is raised, nothing else is touched. *)
Lemma init_raises (self : ref) (w : world D) (o : FramebufferObj) :
  framebuffers w !! self = Some o ->
  exists o',
    Framebuffer.__init__ self w
    = (Raise TypeError, with_framebuffers (<[self := o']> (framebuffers w)) w).
Proof.
  intros Ho. unfold Framebuffer.__init__.
  erewrite bind_ok by (apply setattr_hit; eassumption).
  repeat (erewrite bind_ok by (apply setattr_hit; cbn; apply lookup_insert_eq);
          cbn; rewrite insert_insert_eq).
  eexists. reflexivity.
Qed.

(** Direct construction: a fresh instance, then [TypeError] whatever the
    arguments; every object that existed before is as it was. *)
Lemma construct_raises (args : list pyval) (kwargs : list (string * pyval))
    (w : world D) :
  exists (r : ref) (o' : FramebufferObj),
    framebuffers w !! r = None /\
    Framebuffer.construct args kwargs w
    = (Raise TypeError, with_framebuffers (<[r := o']> (framebuffers w)) w).
Proof.
  set (r := fresh (dom (framebuffers w))).
  assert (Hr : framebuffers w !! r = None).
  { apply not_elem_of_dom. apply is_fresh. }
  exists r. unfold Framebuffer.construct. unfold bind at 1. fold r.
  destruct args as [|a args], kwargs as [|k kwargs];
    try (exists blank; split; [exact Hr | reflexivity]).
  destruct (init_raises r (with_framebuffers (<[r:=blank]> (framebuffers w)) w) blank)
    as [o' Ho']; [cbn; apply lookup_insert_eq |].
  exists o'. split; [exact Hr |].
  erewrite bind_raise by exact Ho'. cbn. now rewrite insert_insert_eq.
Qed.

(** C1. Calling the constructor of [Framebuffer] directly raises [TypeError]
    for every list of positional and keyword arguments, and it does so
    before any crossing into the driver: the trace and the driver state are
    untouched, and so is every object that existed before the call. *)
Theorem construct_always_raises (args : list pyval) (kwargs : list (string * pyval))
    (w : world D) :
  exists w',
    Framebuffer.construct args kwargs w = (Raise TypeError, w') /\
    calls w' = calls w /\
    driver w' = driver w /\
    contexts w' = contexts w /\
    buffers w' = buffers w /\
    (forall r o, framebuffers w !! r = Some o -> framebuffers w' !! r = Some o).
Proof.
  destruct (construct_raises args kwargs w) as (r & o' & Hr & E).
  eexists. split; [exact E |]. cbn. repeat split.
  intros r' o Ho. rewrite lookup_insert_ne; [exact Ho | congruence].
Qed.

End Steps.

Section Clear.
Context {D : Type} `{!Driver D}.

(** A method body that ends in one crossing and returns [None]. *)
Lemma final_crossing (self h : ref) (c : mglo_call) (w : world D) (o : FramebufferObj) :
  framebuffers w !! self = Some o -> mglo o = Some (PyObject ClsMglo h) ->
  (let! m := getattr mglo self in do! call_mglo m c in ret PyNone) w
  = (returning_none (fst (mglo_exec h c (driver w))), crossed h c w).
Proof.
  intros Ho Hm. erewrite bind_ok by (eapply getattr_hit; eassumption).
  unfold bind, call_mglo. now destruct (fst (mglo_exec h c (driver w))).
Qed.

Lemma clear_channels_color (red green blue alpha color : pyval) (t : list pyval) :
  tuple color = Ok t ->
  Framebuffer.clear_channels red green blue alpha color
  = Ok (nth 0 t f0_0, nth 1 t f0_0, nth 2 t f0_0, nth 3 t f0_0).
Proof.
  intros Ht. unfold Framebuffer.clear_channels.
  destruct color; try discriminate Ht; rewrite Ht;
    destruct t as [|a [|b [|c [|d t]]]]; reflexivity.
Qed.

Lemma pad4_nth (t : list pyval) :
  pad4 t = [nth 0 t f0_0; nth 1 t f0_0; nth 2 t f0_0; nth 3 t f0_0].
Proof. destruct t as [|a [|b [|c [|d t]]]]; reflexivity. Qed.

(** C4. For all floats [r], [g], [b], the call [clear(color=(r, g, b))] is
    the call [clear(r, g, b, 0.0)]: same result and same world after it, in
    every world and over every driver.  The missing alpha is padded with
    [0.0] and depth keeps its default [1.0]: if the call crosses into the
    internal object at all, it crosses once, as
    [clear(r, g, b, 0.0, 1.0, None)]. *)
Theorem clear_color_rgb_pads_alpha (self : ref) (r g b : spec_float) (w : world D) :
  Framebuffer.clear_call self [] PyNone (PyTuple [PyFloat r; PyFloat g; PyFloat b]) w
  = Framebuffer.clear_call self [PyFloat r; PyFloat g; PyFloat b; f0_0] PyNone PyNone w
  /\
  (calls (snd (Framebuffer.clear_call self [] PyNone
                 (PyTuple [PyFloat r; PyFloat g; PyFloat b]) w)) = calls w
   \/
   exists h,
     calls (snd (Framebuffer.clear_call self [] PyNone
                   (PyTuple [PyFloat r; PyFloat g; PyFloat b]) w))
     = calls w ++ [(h, Call_clear (PyFloat r) (PyFloat g) (PyFloat b) f0_0 f1_0 PyNone)]).
Proof.
  split; [reflexivity |].
  unfold Framebuffer.clear_call, Framebuffer.clear, bind, lift, getattr.
  cbn [Framebuffer.clear_channels Framebuffer.clear_viewport tuple unpack4_star app].
  destruct (framebuffers w !! self) as [o|]; [|left; reflexivity].
  destruct (mglo o) as [m|]; [|left; reflexivity].
  destruct m as [| | | | | | |k h]; try (left; reflexivity).
  destruct k; try (left; reflexivity).
  right. exists h. unfold call_mglo.
  now destruct (fst (mglo_exec h (Call_clear (PyFloat r) (PyFloat g) (PyFloat b)
                                             f0_0 f1_0 PyNone) (driver w))).
Qed.

(** C2 (amended). [clear] does not reject explicit channel values that
    conflict with [color].  Whenever [color] is an iterable, the explicit
    [red], [green], [blue], [alpha] are discarded: the call is the call made
    with the components of [color] (padded with [0.0]) as channels and no
    [color], in every world and over every driver. *)
Theorem clear_color_replaces_channels (self : ref)
    (red green blue alpha depth viewport color : pyval) (t : list pyval)
    (w : world D) :
  tuple color = Ok t ->
  Framebuffer.clear self red green blue alpha depth viewport color w
  = Framebuffer.clear self (nth 0 t f0_0) (nth 1 t f0_0) (nth 2 t f0_0) (nth 3 t f0_0)
                      depth viewport PyNone w.
Proof.
  intros Ht. unfold Framebuffer.clear.
  now rewrite (clear_channels_color red green blue alpha color t Ht).
Qed.

(** C10. For every sequence given as [color], with elements [t], the one
    crossing [clear] makes carries as channels the first four elements of
    [t] padded on the right with [0.0] ([pad4 t]); elements beyond the
    fourth are dropped without an error, the empty sequence gives four
    zeros, and the depth that crosses is the [depth] argument. *)
Theorem clear_channels_are_padded_prefix (self h : ref)
    (red green blue alpha depth viewport color vp : pyval) (t : list pyval)
    (o : FramebufferObj) (w : world D) :
  framebuffers w !! self = Some o ->
  mglo o = Some (PyObject ClsMglo h) ->
  Framebuffer.clear_viewport viewport = Ok vp ->
  tuple color = Ok t ->
  exists r g b a,
    pad4 t = [r; g; b; a] /\
    (t = [] -> (r, g, b, a) = (f0_0, f0_0, f0_0, f0_0)) /\
    Framebuffer.clear self red green blue alpha depth viewport color w
    = (returning_none (fst (mglo_exec h (Call_clear r g b a depth vp) (driver w))),
       crossed h (Call_clear r g b a depth vp) w).
Proof.
  intros Ho Hm Hv Ht.
  exists (nth 0 t f0_0), (nth 1 t f0_0), (nth 2 t f0_0), (nth 3 t f0_0).
  split; [apply pad4_nth |]. split; [now intros -> |].
  unfold Framebuffer.clear.
  rewrite (clear_channels_color red green blue alpha color t Ht), Hv.
  unfold lift at 1. unfold bind at 1. cbn iota.
  unfold lift at 1. unfold bind at 1. cbn iota.
  now apply final_crossing with (o := o).
Qed.

End Clear.

Section Setters.
Context {D : Type} `{!Driver D}.

(** The setters raise before crossing only when [tuple] does. *)
Lemma viewport_setter_not_iterable (self : ref) (value : pyval) (e : exn) (w : world D) :
  tuple value = Raise e ->
  Framebuffer.viewport_setter self value w = (Raise e, w).
Proof. intros Ht. unfold Framebuffer.viewport_setter, bind, lift. now rewrite Ht. Qed.

Lemma viewport_setter_crossing (self h : ref) (value : pyval) (t : list pyval)
    (o : FramebufferObj) (w : world D) :
  framebuffers w !! self = Some o ->
  mglo o = Some (PyObject ClsMglo h) ->
  tuple value = Ok t ->
  Framebuffer.viewport_setter self value w
  = (returning_none (fst (mglo_exec h (Set_viewport (PyTuple t)) (driver w))),
     crossed h (Set_viewport (PyTuple t)) w).
Proof.
  intros Ho Hm Ht. unfold Framebuffer.viewport_setter. rewrite Ht.
  unfold lift at 1. unfold bind at 1. cbn iota.
  now apply final_crossing with (o := o).
Qed.

Lemma scissor_setter_crossing (self h : ref) (value : pyval) (t : list pyval)
    (o : FramebufferObj) (w : world D) :
  framebuffers w !! self = Some o ->
  mglo o = Some (PyObject ClsMglo h) ->
  tuple value = Ok t ->
  Framebuffer.scissor_setter self value w
  = (returning_none (fst (mglo_exec h (Set_scissor (PyTuple t)) (driver w))),
     crossed h (Set_scissor (PyTuple t)) w).
Proof.
  intros Ho Hm Ht. unfold Framebuffer.scissor_setter.
  destruct value; try discriminate Ht; rewrite Ht;
    unfold lift at 1; unfold bind at 1; cbn iota;
    now apply final_crossing with (o := o).
Qed.

(** C7 (amended). A sequence of the wrong length is not rejected by the
    setters of [viewport] and [scissor].  For an iterable [value] of any
    length, each setter makes exactly one crossing into the internal object,
    carrying the elements of [value] as a tuple, and the setter's outcome is
    the outcome of that crossing. *)
Theorem setter_forwards_any_length (self h : ref) (value : pyval) (t : list pyval)
    (o : FramebufferObj) (w : world D) :
  framebuffers w !! self = Some o ->
  mglo o = Some (PyObject ClsMglo h) ->
  tuple value = Ok t ->
  Framebuffer.viewport_setter self value w
  = (returning_none (fst (mglo_exec h (Set_viewport (PyTuple t)) (driver w))),
     crossed h (Set_viewport (PyTuple t)) w)
  /\
  Framebuffer.scissor_setter self value w
  = (returning_none (fst (mglo_exec h (Set_scissor (PyTuple t)) (driver w))),
     crossed h (Set_scissor (PyTuple t)) w).
Proof.
  intros Ho Hm Ht. split.
  - now apply viewport_setter_crossing with (o := o).
  - now apply scissor_setter_crossing with (o := o).
Qed.

(** C8. When [use] returns, the context that owns the receiver holds the
    receiver, and only the receiver, as its active framebuffer: the
    attribute [fbo] of that context is overwritten with [self] whatever it
    held before, and no other context is touched. *)
Theorem use_sets_active_framebuffer (self : ref) (v : pyval) (w w' : world D) :
  Framebuffer.use self w = (Ok v, w') ->
  exists o c,
    framebuffers w !! self = Some o /\
    ctx o = Some (PyObject ClsContext c) /\
    contexts w' !! c = Some (mkContext (PyObject ClsFramebuffer self)) /\
    (forall c', c' <> c -> contexts w' !! c' = contexts w !! c').
Proof.
  unfold Framebuffer.use, bind, getattr, setattr_fbo, call_mglo, raise, ret.
  intros E.
  destruct (framebuffers w !! self) as [o|] eqn:Ho; [|discriminate E].
  destruct (ctx o) as [c0|] eqn:Hc; [|discriminate E].
  destruct c0 as [| | | | | | |k c]; try discriminate E.
  destruct k; try discriminate E.
  destruct (contexts w !! c) as [co|] eqn:Hco; [|discriminate E].
  cbn in E. rewrite Ho in E.
  destruct (mglo o) as [m0|] eqn:Hm; [|discriminate E].
  destruct m0 as [| | | | | | |k h]; try discriminate E.
  destruct k; try discriminate E.
  destruct (fst (mglo_exec h Call_use _)) eqn:Hx; [|discriminate E].
  injection E as <- <-. exists o, c. cbn.
  split; [reflexivity |]. split; [exact Hc |].
  split; [apply lookup_insert_eq |].
  intros c' Hne. apply lookup_insert_ne. congruence.
Qed.

End Setters.

(** ** The read-only fields *)

Section Frame.
Context {D : Type} `{!Driver D}.

Lemma keeps_fixed_refl (w : world D) : keeps_fixed w w.
Proof. intros r o Ho. now exists o. Qed.

Lemma keeps_fixed_trans (w1 w2 w3 : world D) :
  keeps_fixed w1 w2 -> keeps_fixed w2 w3 -> keeps_fixed w1 w3.
Proof.
  intros H12 H23 r o Ho.
  destruct (H12 r o Ho) as (o2 & Ho2 & E2).
  destruct (H23 r o2 Ho2) as (o3 & Ho3 & E3).
  exists o3. split; [exact Ho3 | congruence].
Qed.

Lemma keeps_fixed_same_heap (w w' : world D) :
  framebuffers w' = framebuffers w -> keeps_fixed w w'.
Proof. intros E r o Ho. exists o. now rewrite E. Qed.

Lemma preserving_ret {A} (a : A) : preserving (ret (D := D) a).
Proof. intros w. apply keeps_fixed_refl. Qed.

Lemma preserving_raise {A} (e : exn) : preserving (raise (D := D) (A := A) e).
Proof. intros w. apply keeps_fixed_refl. Qed.

Lemma preserving_lift {A} (r : result A) : preserving (lift (D := D) r).
Proof. intros w. apply keeps_fixed_refl. Qed.

Lemma preserving_bind {A B} (m : M D A) (k : A -> M D B) :
  preserving m -> (forall a, preserving (k a)) -> preserving (bind m k).
Proof.
  intros Hm Hk w. unfold bind. specialize (Hm w).
  destruct (m w) as [[a|e] w1]; cbn in *; [|exact Hm].
  eapply keeps_fixed_trans; [exact Hm | apply Hk].
Qed.

Lemma preserving_getattr (slot : FramebufferObj -> option pyval) (self : ref) :
  preserving (getattr (D := D) slot self).
Proof.
  intros w. unfold getattr.
  destruct (framebuffers w !! self) as [o|]; [destruct (slot o)|];
    apply keeps_fixed_refl.
Qed.

Lemma preserving_setattr_extra (self : ref) (v : pyval) :
  preserving (setattr (D := D) set_extra self v).
Proof.
  intros w. unfold setattr.
  destruct (framebuffers w !! self) as [o|] eqn:Ho; [|apply keeps_fixed_refl].
  intros r o' Ho'. unfold with_framebuffers. cbn.
  destruct (decide (r = self)) as [->|Hne].
  - exists (set_extra v o). split; [apply lookup_insert_eq |].
    rewrite Ho in Ho'. now injection Ho' as <-.
  - exists o'. split; [|reflexivity].
    rewrite lookup_insert_ne; [exact Ho' | congruence].
Qed.

Lemma preserving_setattr_fbo (target v : pyval) :
  preserving (setattr_fbo (D := D) target v).
Proof.
  intros w. unfold setattr_fbo.
  destruct target as [| | | | | | |k c]; try apply keeps_fixed_refl.
  destruct k; try apply keeps_fixed_refl.
  destruct (contexts w !! c); apply keeps_fixed_same_heap; reflexivity.
Qed.

Lemma preserving_call_mglo (target : pyval) (c : mglo_call) :
  preserving (call_mglo target c).
Proof.
  intros w. unfold call_mglo.
  destruct target as [| | | | | | |k h]; try apply keeps_fixed_refl.
  destruct k; try apply keeps_fixed_refl.
  apply keeps_fixed_same_heap; reflexivity.
Qed.

Lemma preserving_construct (args : list pyval) (kwargs : list (string * pyval)) :
  preserving (Framebuffer.construct (D := D) args kwargs).
Proof.
  intros w. destruct (construct_raises args kwargs w) as (r & o' & Hr & E).
  rewrite E. cbn. intros r' o Ho. exists o. split; [|reflexivity].
  unfold with_framebuffers. cbn. rewrite lookup_insert_ne; [exact Ho | congruence].
Qed.

Lemma preserving_clear (self : ref) (red green blue alpha depth viewport color : pyval) :
  preserving (Framebuffer.clear (D := D) self red green blue alpha depth viewport color).
Proof.
  unfold Framebuffer.clear.
  apply preserving_bind; [apply preserving_lift | intros [[[r g] b] a]].
  apply preserving_bind; [apply preserving_lift | intros vp].
  apply preserving_bind; [apply preserving_getattr | intros m].
  apply preserving_bind; [apply preserving_call_mglo | intros _].
  apply preserving_ret.
Qed.

Lemma preserving_read_into (self : ref)
    (buffer viewport components attachment alignment dtype write_offset : pyval) :
  preserving (Framebuffer.read_into (D := D) self buffer viewport components
                                    attachment alignment dtype write_offset).
Proof.
  unfold Framebuffer.read_into. apply preserving_bind.
  - destruct buffer as [| | | | | | |k b]; try apply preserving_ret.
    destruct k; try apply preserving_ret.
    intros w. destruct (buffers w !! b); apply keeps_fixed_refl.
  - intros buf. apply preserving_bind; [apply preserving_getattr | intros m].
    apply preserving_call_mglo.
Qed.

Ltac preserve :=
  repeat first
    [ apply preserving_ret
    | apply preserving_raise
    | apply preserving_lift
    | apply preserving_getattr
    | apply preserving_setattr_extra
    | apply preserving_setattr_fbo
    | apply preserving_call_mglo
    | apply preserving_bind; [|intros ?] ].

(** No operation of the public surface changes a read-only field of any
    framebuffer, whether it returns or raises. *)
Lemma preserving_perform (op : operation) : preserving (perform (D := D) op).
Proof.
  destruct op; cbn [perform];
    try apply preserving_construct;
    try apply preserving_read_into;
    try (unfold Framebuffer.viewport, Framebuffer.viewport_setter,
           Framebuffer.scissor, Framebuffer.color_mask, Framebuffer.color_mask_setter,
           Framebuffer.depth_mask, Framebuffer.depth_mask_setter, Framebuffer.width,
           Framebuffer.height, Framebuffer.size, Framebuffer.samples, Framebuffer.bits,
           Framebuffer.color_attachments, Framebuffer.depth_attachment, Framebuffer.glo,
           Framebuffer.use, Framebuffer.read, Framebuffer.release,
           Framebuffer.extra_setter; preserve; fail).
  - unfold Framebuffer.scissor_setter. destruct value; preserve.
  - unfold Framebuffer.clear_call.
    destruct positional as [|r [|g [|b [|a [|d [|x rest]]]]]];
      try apply preserving_clear. apply preserving_raise.
Qed.

Lemma run_keeps_fixed (ops : list operation) (w : world D) : keeps_fixed w (run ops w).
Proof.
  revert w. induction ops as [|op rest IH]; intros w; cbn [run].
  - apply keeps_fixed_refl.
  - eapply keeps_fixed_trans; [apply preserving_perform | apply IH].
Qed.

Lemma getattr_result (slot : FramebufferObj -> option pyval) (r : ref)
    (w w' : world D) (o o' : FramebufferObj) :
  framebuffers w !! r = Some o -> framebuffers w' !! r = Some o' ->
  slot o' = slot o ->
  fst (getattr slot r w') = fst (getattr slot r w).
Proof.
  intros Ho Ho' E. unfold getattr. rewrite Ho, Ho', E. now destruct (slot o).
Qed.

Lemma fst_bind_lift {A B} (m : M D A) (f : A -> result B) (w : world D) :
  fst (bind m (fun a => lift (f a)) w)
  = match fst (m w) with Ok a => f a | Raise e => Raise e end.
Proof. unfold bind, lift. now destruct (m w) as [[a|e] w1]. Qed.

(** C9. The size (hence width and height), the sample count, the object
    handle and the attachments of a framebuffer are fixed once it exists:
    after any sequence of public operations, on this or on any other
    framebuffer, returning or raising, the five fields are what they were
    and the seven read-only properties give what they gave. *)
Theorem fixed_fields_never_change (ops : list operation) (r : ref)
    (o : FramebufferObj) (w : world D) :
  framebuffers w !! r = Some o ->
  exists o',
    framebuffers (run ops w) !! r = Some o' /\
    fixed_fields o' = fixed_fields o /\
    fst (Framebuffer.size r (run ops w)) = fst (Framebuffer.size r w) /\
    fst (Framebuffer.width r (run ops w)) = fst (Framebuffer.width r w) /\
    fst (Framebuffer.height r (run ops w)) = fst (Framebuffer.height r w) /\
    fst (Framebuffer.samples r (run ops w)) = fst (Framebuffer.samples r w) /\
    fst (Framebuffer.glo r (run ops w)) = fst (Framebuffer.glo r w) /\
    fst (Framebuffer.color_attachments r (run ops w))
    = fst (Framebuffer.color_attachments r w) /\
    fst (Framebuffer.depth_attachment r (run ops w))
    = fst (Framebuffer.depth_attachment r w).
Proof.
  intros Ho. destruct (run_keeps_fixed ops w r o Ho) as (o' & Ho' & E).
  exists o'. split; [exact Ho' |]. split; [exact E |].
  unfold fixed_fields in E. injection E as Esz Esa Egl Eca Eda.
  unfold Framebuffer.width, Framebuffer.height. rewrite !fst_bind_lift.
  unfold Framebuffer.size, Framebuffer.samples, Framebuffer.glo,
    Framebuffer.color_attachments, Framebuffer.depth_attachment.
  rewrite (getattr_result _size r w (run ops w) o o' Ho Ho' Esz).
  rewrite (getattr_result _samples r w (run ops w) o o' Ho Ho' Esa).
  rewrite (getattr_result _glo r w (run ops w) o o' Ho Ho' Egl).
  rewrite (getattr_result _color_attachments r w (run ops w) o o' Ho Ho' Eca).
  rewrite (getattr_result _depth_attachment r w (run ops w) o o' Ho Ho' Eda).
  repeat split.
Qed.

End Frame.

(** ** Over the internal object of the specification *)

Section OverSpec.
Import MglSpec.

Lemma exec_clear_pair (h : ref) (r g b a d : pyval) (wd ht : Z) (s : gl) :
  exec h (Call_clear r g b a d (PyTuple [PyInt wd; PyInt ht])) s
  = exec h (Call_clear r g b a d (PyTuple [PyInt 0; PyInt 0; PyInt wd; PyInt ht])) s.
Proof. unfold exec. now destruct (objects s !! h). Qed.

Lemma clear_pair (self : ref) (red green blue alpha depth color : pyval)
    (wd ht : Z) (w : world gl) :
  behaviour (Framebuffer.clear self red green blue alpha depth
               (PyTuple [PyInt wd; PyInt ht]) color w)
  = behaviour (Framebuffer.clear self red green blue alpha depth
                 (PyTuple [PyInt 0; PyInt 0; PyInt wd; PyInt ht]) color w).
Proof.
  unfold Framebuffer.clear, bind, lift.
  destruct (Framebuffer.clear_channels red green blue alpha color)
    as [[[[r g] b] a]|e]; [|reflexivity].
  cbn [Framebuffer.clear_viewport tuple]. unfold getattr.
  destruct (framebuffers w !! self) as [o|]; [|reflexivity].
  destruct (mglo o) as [m|]; [|reflexivity].
  destruct m as [| | | | | | |k h]; try reflexivity.
  destruct k; try reflexivity.
  unfold call_mglo, crossed, mglo_exec, spec_driver. cbn [driver].
  rewrite exec_clear_pair.
  now destruct (exec h _ (driver w)) as [[v|e] s].
Qed.

Lemma clear_call_pair (self : ref) (positional : list pyval)
    (color : pyval) (wd ht : Z) (w : world gl) :
  behaviour (Framebuffer.clear_call self positional
               (PyTuple [PyInt wd; PyInt ht]) color w)
  = behaviour (Framebuffer.clear_call self positional
                 (PyTuple [PyInt 0; PyInt 0; PyInt wd; PyInt ht]) color w).
Proof.
  unfold Framebuffer.clear_call.
  destruct positional as [|r [|g [|b [|a [|d [|x rest]]]]]];
    try apply clear_pair. reflexivity.
Qed.

(** Up to five positional arguments bind to the five leading parameters,
    the rest keep their defaults. *)
Lemma clear_call_bound (self : ref) (positional : list pyval) (viewport color : pyval)
    (w : world gl) :
  (length positional <= 5)%nat ->
  Framebuffer.clear_call self positional viewport color w
  = Framebuffer.clear self (nth 0 positional f0_0) (nth 1 positional f0_0)
      (nth 2 positional f0_0) (nth 3 positional f0_0) (nth 4 positional f1_0)
      viewport color w.
Proof.
  intros Hl. destruct positional as [|r [|g [|b [|a [|d [|x rest]]]]]];
    try reflexivity. cbn in Hl. lia.
Qed.

(** A [clear] that reaches a live internal object with a viewport the
    object resolves to [region]. *)
Lemma clear_issues (self h : ref) (red green blue alpha depth viewport color : pyval)
    (r g b a vp : pyval) (region : box) (o : FramebufferObj) (m : MGLFramebuffer)
    (w : world gl) :
  framebuffers w !! self = Some o ->
  mglo o = Some (PyObject ClsMglo h) ->
  objects (driver w) !! h = Some m ->
  Framebuffer.clear_channels red green blue alpha color = Ok (r, g, b, a) ->
  Framebuffer.clear_viewport viewport = Ok vp ->
  resolve_viewport m vp = Some region ->
  Framebuffer.clear self red green blue alpha depth viewport color w
  = (Ok PyNone,
     mkWorld (framebuffers w) (contexts w) (buffers w)
             (issue (GlClear h r g b a depth region) (driver w))
             (calls w ++ [(h, Call_clear r g b a depth vp)])).
Proof.
  intros Ho Hm Hh Hc Hv Hr. unfold Framebuffer.clear. rewrite Hc, Hv.
  unfold lift at 1. unfold bind at 1. cbn iota.
  unfold lift at 1. unfold bind at 1. cbn iota.
  rewrite (final_crossing self h (Call_clear r g b a depth vp) w o Ho Hm).
  unfold crossed, mglo_exec, spec_driver, exec. now rewrite Hh, Hr.
Qed.

(** C3. For every width [wd] and height [ht], [clear] with
    [viewport=(wd, ht)] behaves as [clear] with [viewport=(0, 0, wd, ht)]:
    the same result, the same heap and the same driver state, whatever the
    other arguments and the world.  And the pair is normalised to
    [(0, 0, wd, ht)] before the clear is issued: on a framebuffer over a
    live internal object both calls return [None] and issue exactly one
    clear, with the channels and the depth of the call, scoped to the
    region [(0, 0, wd, ht)], and nothing else of the driver changes.  The
    wrapper passes the pair on as it is; the internal object normalises
    it. *)
Theorem clear_viewport_pair_is_origin_box (self : ref) (positional : list pyval)
    (color : pyval) (wd ht : Z) (w : world gl) :
  behaviour (Framebuffer.clear_call self positional
               (PyTuple [PyInt wd; PyInt ht]) color w)
  = behaviour (Framebuffer.clear_call self positional
                 (PyTuple [PyInt 0; PyInt 0; PyInt wd; PyInt ht]) color w)
  /\
  forall (o : FramebufferObj) (h : ref) (m : MGLFramebuffer) (r g b a : pyval),
    framebuffers w !! self = Some o ->
    mglo o = Some (PyObject ClsMglo h) ->
    objects (driver w) !! h = Some m ->
    (length positional <= 5)%nat ->
    Framebuffer.clear_channels (nth 0 positional f0_0) (nth 1 positional f0_0)
      (nth 2 positional f0_0) (nth 3 positional f0_0) color = Ok (r, g, b, a) ->
    Framebuffer.clear_call self positional (PyTuple [PyInt wd; PyInt ht]) color w
    = (Ok PyNone,
       mkWorld (framebuffers w) (contexts w) (buffers w)
               (mkGl (objects (driver w)) (bound (driver w))
                     (commands (driver w)
                      ++ [GlClear h r g b a (nth 4 positional f1_0) (0, 0, wd, ht)])
                     (readback (driver w)))
               (calls w
                ++ [(h, Call_clear r g b a (nth 4 positional f1_0)
                          (PyTuple [PyInt wd; PyInt ht]))]))
    /\
    commands (driver (snd (Framebuffer.clear_call self positional
                             (PyTuple [PyInt 0; PyInt 0; PyInt wd; PyInt ht]) color w)))
    = commands (driver w)
      ++ [GlClear h r g b a (nth 4 positional f1_0) (0, 0, wd, ht)].
Proof.
  split; [apply clear_call_pair |].
  intros o h m r g b a Ho Hm Hh Hl Hc. split.
  - rewrite (clear_call_bound self positional _ color w Hl).
    apply (clear_issues self h _ _ _ _ _ _ color r g b a
             (PyTuple [PyInt wd; PyInt ht]) (0, 0, wd, ht) o m w Ho Hm Hh Hc);
      reflexivity.
  - rewrite (clear_call_bound self positional _ color w Hl).
    rewrite (clear_issues self h _ _ _ _ (nth 4 positional f1_0)
               (PyTuple [PyInt 0; PyInt 0; PyInt wd; PyInt ht]) color r g b a
               (PyTuple [PyInt 0; PyInt 0; PyInt wd; PyInt ht]) (0, 0, wd, ht)
               o m w Ho Hm Hh Hc eq_refl eq_refl).
    reflexivity.
Qed.

Lemma factory_made_exec (w : world gl) (self : ref) (W H : Z) :
  factory_made w self W H ->
  exists o h m,
    framebuffers w !! self = Some o /\
    mglo o = Some (PyObject ClsMglo h) /\
    _size o = Some (PyTuple [PyInt W; PyInt H]) /\
    objects (driver w) !! h = Some m /\
    full_box m = (0, 0, W, H).
Proof.
  intros (o & h & m & Ho & Hm & Hs & Hh & <- & <-). now exists o, h, m.
Qed.

Lemma exec_set_viewport (h : ref) (x y wd ht : Z) (m : MGLFramebuffer) (s : gl) :
  objects s !! h = Some m ->
  exec h (Set_viewport (PyTuple [PyInt x; PyInt y; PyInt wd; PyInt ht])) s
  = (Ok PyNone,
     with_object h (mkMGL (mgl_width m) (mgl_height m) (x, y, wd, ht) (mgl_scissor m)
                          (mgl_color_mask m) (mgl_depth_mask m) (mgl_bits m)) s).
Proof. intros Hh. unfold exec. now rewrite Hh. Qed.

Lemma exec_set_scissor (h : ref) (v : pyval) (b : box) (m : MGLFramebuffer) (s : gl) :
  objects s !! h = Some m ->
  match v with PyNone => Some (full_box m) | _ => box_of v end = Some b ->
  exec h (Set_scissor v) s
  = (Ok PyNone,
     with_object h (mkMGL (mgl_width m) (mgl_height m) (mgl_viewport m) b
                          (mgl_color_mask m) (mgl_depth_mask m) (mgl_bits m)) s).
Proof. intros Hh Hb. unfold exec. now rewrite Hh, Hb. Qed.

Lemma exec_get_viewport (h : ref) (m : MGLFramebuffer) (s : gl) :
  exec h Get_viewport (with_object h m s)
  = (Ok (tuple_of_box (mgl_viewport m)), with_object h m s).
Proof.
  unfold exec. unfold with_object at 1. cbn [objects]. now rewrite lookup_insert_eq.
Qed.

Lemma exec_get_scissor (h : ref) (m : MGLFramebuffer) (s : gl) :
  exec h Get_scissor (with_object h m s)
  = (Ok (tuple_of_box (mgl_scissor m)), with_object h m s).
Proof.
  unfold exec. unfold with_object at 1. cbn [objects]. now rewrite lookup_insert_eq.
Qed.

(** C5. For every sequence [V] of four pixel coordinates, in range or not,
    setting [viewport] to [V] on a framebuffer handed out by the factory
    and then reading [viewport] gives the tuple of the elements of [V].  The
    setter forwards that tuple in one crossing, unvalidated. *)
Theorem viewport_set_then_get (self : ref) (V : pyval) (x y wd ht W H : Z)
    (w : world gl) :
  factory_made w self W H ->
  tuple V = Ok [PyInt x; PyInt y; PyInt wd; PyInt ht] ->
  fst ((do! Framebuffer.viewport_setter self V in Framebuffer.viewport self) w)
  = Ok (PyTuple [PyInt x; PyInt y; PyInt wd; PyInt ht]) /\
  exists h,
    calls (snd (Framebuffer.viewport_setter self V w))
    = calls w ++ [(h, Set_viewport (PyTuple [PyInt x; PyInt y; PyInt wd; PyInt ht]))].
Proof.
  intros Hf HV. destruct (factory_made_exec w self W H Hf)
    as (o & h & m & Ho & Hm & _ & Hh & _).
  rewrite (bind_unfold (Framebuffer.viewport_setter self V)).
  rewrite (viewport_setter_crossing self h V _ o w Ho Hm HV).
  split; [|now exists h].
  unfold crossed, mglo_exec, spec_driver.
  rewrite (exec_set_viewport h x y wd ht m (driver w) Hh). cbn [returning_none fst snd].
  unfold Framebuffer.viewport.
  erewrite bind_ok by (eapply getattr_hit; [exact Ho | exact Hm]).
  unfold call_mglo, mglo_exec, spec_driver. cbn [driver fst].
  now rewrite exec_get_viewport.
Qed.

(** C6. On a framebuffer handed out by the factory with size [(W, H)],
    setting [scissor] to [None] and then reading [scissor] gives
    [(0, 0, W, H)], where [W] and [H] are what [width] and [height] give;
    and setting [scissor] to [None] behaves as setting it to
    [(0, 0, W, H)]. *)
Theorem scissor_none_is_full_size (self : ref) (W H : Z) (w : world gl) :
  factory_made w self W H ->
  fst ((do! Framebuffer.scissor_setter self PyNone in Framebuffer.scissor self) w)
  = Ok (PyTuple [PyInt 0; PyInt 0; PyInt W; PyInt H]) /\
  fst (Framebuffer.width self w) = Ok (PyInt W) /\
  fst (Framebuffer.height self w) = Ok (PyInt H) /\
  behaviour (Framebuffer.scissor_setter self PyNone w)
  = behaviour (Framebuffer.scissor_setter self
                 (PyTuple [PyInt 0; PyInt 0; PyInt W; PyInt H]) w).
Proof.
  intros Hf. destruct (factory_made_exec w self W H Hf)
    as (o & h & m & Ho & Hm & Hs & Hh & Hb).
  assert (Enone : Framebuffer.scissor_setter self PyNone w
                  = (returning_none (fst (mglo_exec h (Set_scissor PyNone) (driver w))),
                     crossed h (Set_scissor PyNone) w)).
  { exact (final_crossing self h (Set_scissor PyNone) w o Ho Hm). }
  repeat split.
  - unfold bind at 1. rewrite Enone. unfold crossed, mglo_exec, spec_driver.
    rewrite (exec_set_scissor h PyNone (0, 0, W, H) m (driver w) Hh (f_equal Some Hb)).
    cbn [returning_none fst snd]. unfold Framebuffer.scissor.
    erewrite bind_ok by (eapply getattr_hit; [exact Ho | exact Hm]).
    unfold call_mglo, mglo_exec, spec_driver. cbn [driver fst].
    now rewrite exec_get_scissor.
  - unfold Framebuffer.width, bind, getattr, lift. now rewrite Ho, Hs.
  - unfold Framebuffer.height, bind, getattr, lift. now rewrite Ho, Hs.
  - rewrite Enone.
    rewrite (scissor_setter_crossing self h
               (PyTuple [PyInt 0; PyInt 0; PyInt W; PyInt H]) _ o w Ho Hm eq_refl).
    unfold behaviour, crossed, mglo_exec, spec_driver.
    rewrite (exec_set_scissor h PyNone (0, 0, W, H) m (driver w) Hh (f_equal Some Hb)).
    now rewrite (exec_set_scissor h (PyTuple [PyInt 0; PyInt 0; PyInt W; PyInt H])
                   (0, 0, W, H) m (driver w) Hh eq_refl).
Qed.

End OverSpec.

(** ** The concrete world *)

Section Concrete.
Import MglSpec Example.

Lemma w0_factory_made : factory_made w0 2 256 256 /\ factory_made w0 4 64 32.
Proof.
  split.
  - exists fb_256, 3%positive,
      (mkMGL 256 256 (0, 0, 256, 256) (0, 0, 256, 256) all_channels (PyBool true)
             (PyStr "8888/24")).
    repeat split.
  - exists fb_64, 5%positive,
      (mkMGL 64 32 (0, 0, 64, 32) (0, 0, 64, 32) all_channels (PyBool true)
             (PyStr "8888/24")).
    repeat split.
Qed.

(** C2, as stated, fails: [clear(1.0, 1.0, 1.0, 1.0, color=(0.0, 0.0, 0.0,
    0.0))] gives every channel twice, with different values, and is not
    rejected.  It returns [None] after one crossing that carries the
    channels of [color]. *)
Lemma clear_conflict_not_rejected :
  pad4 [f0_0; f0_0; f0_0; f0_0] <> [f1_0; f1_0; f1_0; f1_0] /\
  fst (Framebuffer.clear_call 2 [f1_0; f1_0; f1_0; f1_0] PyNone
         (PyTuple [f0_0; f0_0; f0_0; f0_0]) w0)
  = Ok PyNone /\
  calls (snd (Framebuffer.clear_call 2 [f1_0; f1_0; f1_0; f1_0] PyNone
                (PyTuple [f0_0; f0_0; f0_0; f0_0]) w0))
  = [(3%positive, Call_clear f0_0 f0_0 f0_0 f0_0 f1_0 PyNone)].
Proof. split; [discriminate | split; reflexivity]. Qed.

Lemma clear_color_replaces_channels_witness :
  tuple (PyTuple [f0_0; f0_0; f0_0; f0_0]) = Ok [f0_0; f0_0; f0_0; f0_0] /\
  Framebuffer.clear 2 f1_0 f1_0 f1_0 f1_0 f1_0 PyNone
    (PyTuple [f0_0; f0_0; f0_0; f0_0]) w0
  = Framebuffer.clear 2 f0_0 f0_0 f0_0 f0_0 f1_0 PyNone PyNone w0.
Proof.
  split; [reflexivity |].
  apply (clear_color_replaces_channels 2 f1_0 f1_0 f1_0 f1_0 f1_0 PyNone
           (PyTuple [f0_0; f0_0; f0_0; f0_0]) [f0_0; f0_0; f0_0; f0_0] w0).
  reflexivity.
Defined.

(** C7, as stated, fails: a 3-tuple given to the [viewport] setter and a
    5-tuple given to the [scissor] setter both cross into the internal
    object, which is where the error comes from. *)
Lemma wrong_length_reaches_driver :
  calls w0 = [] /\
  Framebuffer.viewport_setter 2 (PyTuple [PyInt 1; PyInt 2; PyInt 3]) w0
  = (Raise (MglError "viewport"),
     crossed 3 (Set_viewport (PyTuple [PyInt 1; PyInt 2; PyInt 3])) w0) /\
  calls (snd (Framebuffer.viewport_setter 2 (PyTuple [PyInt 1; PyInt 2; PyInt 3]) w0))
  = [(3%positive, Set_viewport (PyTuple [PyInt 1; PyInt 2; PyInt 3]))] /\
  calls (snd (Framebuffer.scissor_setter 2
                (PyTuple [PyInt 1; PyInt 2; PyInt 3; PyInt 4; PyInt 5]) w0))
  = [(3%positive, Set_scissor (PyTuple [PyInt 1; PyInt 2; PyInt 3; PyInt 4; PyInt 5]))].
Proof. repeat split. Qed.

Lemma setter_forwards_any_length_witness :
  Framebuffer.viewport_setter 2 (PyList [PyInt 1; PyInt 2; PyInt 3]) w0
  = (returning_none
       (fst (mglo_exec 3%positive (Set_viewport (PyTuple [PyInt 1; PyInt 2; PyInt 3]))
               (driver w0))),
     crossed 3 (Set_viewport (PyTuple [PyInt 1; PyInt 2; PyInt 3])) w0)
  /\
  Framebuffer.scissor_setter 2 (PyList [PyInt 1; PyInt 2; PyInt 3]) w0
  = (returning_none
       (fst (mglo_exec 3%positive (Set_scissor (PyTuple [PyInt 1; PyInt 2; PyInt 3]))
               (driver w0))),
     crossed 3 (Set_scissor (PyTuple [PyInt 1; PyInt 2; PyInt 3])) w0).
Proof.
  apply (setter_forwards_any_length 2 3 (PyList [PyInt 1; PyInt 2; PyInt 3])
           [PyInt 1; PyInt 2; PyInt 3] fb_256 w0); reflexivity.
Defined.

Lemma use_sets_active_framebuffer_witness :
  exists o c,
    framebuffers w0 !! 4%positive = Some o /\
    ctx o = Some (PyObject ClsContext c) /\
    contexts (snd (Framebuffer.use 4 w0)) !! c
    = Some (mkContext (PyObject ClsFramebuffer 4)) /\
    (forall c', c' <> c ->
       contexts (snd (Framebuffer.use 4 w0)) !! c' = contexts w0 !! c').
Proof.
  apply (use_sets_active_framebuffer 4 PyNone w0 (snd (Framebuffer.use 4 w0))).
  reflexivity.
Defined.

(** Two framebuffers of one context, used one after the other: the second
    replaces the first. *)
Example use_overwrites :
  contexts (run [Use 2] w0) !! 1%positive
  = Some (mkContext (PyObject ClsFramebuffer 2)) /\
  contexts (run [Use 2; Use 4] w0) !! 1%positive
  = Some (mkContext (PyObject ClsFramebuffer 4)) /\
  bound (driver (run [Use 2; Use 4] w0)) = Some 5%positive.
Proof. repeat split. Qed.

Lemma fixed_fields_never_change_witness :
  exists o',
    framebuffers (run program w0) !! 2%positive = Some o' /\
    fixed_fields o' = fixed_fields fb_256 /\
    fst (Framebuffer.size 2 (run program w0)) = fst (Framebuffer.size 2 w0) /\
    fst (Framebuffer.width 2 (run program w0)) = fst (Framebuffer.width 2 w0) /\
    fst (Framebuffer.height 2 (run program w0)) = fst (Framebuffer.height 2 w0) /\
    fst (Framebuffer.samples 2 (run program w0)) = fst (Framebuffer.samples 2 w0) /\
    fst (Framebuffer.glo 2 (run program w0)) = fst (Framebuffer.glo 2 w0) /\
    fst (Framebuffer.color_attachments 2 (run program w0))
    = fst (Framebuffer.color_attachments 2 w0) /\
    fst (Framebuffer.depth_attachment 2 (run program w0))
    = fst (Framebuffer.depth_attachment 2 w0).
Proof. apply (fixed_fields_never_change program 2 fb_256 w0). reflexivity. Defined.

(** The program does change what is not fixed: the viewport, the colour
    mask, the user attribute, the active framebuffer; and it ends with the
    internal object released. *)
Example program_effects :
  extra <$> framebuffers (run program w0) !! 2%positive = Some (Some (PyInt 7)) /\
  contexts (run program w0) !! 1%positive
  = Some (mkContext (PyObject ClsFramebuffer 2)) /\
  objects (driver (run program w0)) !! 3%positive = None /\
  fst (Framebuffer.size 2 (run program w0)) = Ok (PyTuple [PyInt 256; PyInt 256]).
Proof. repeat split. Qed.

Lemma clear_channels_are_padded_prefix_witness :
  exists r g b a,
    pad4 [f1_0; PyInt 2; f0_0; f1_0; PyInt 5; PyInt 6] = [r; g; b; a] /\
    ([f1_0; PyInt 2; f0_0; f1_0; PyInt 5; PyInt 6] = [] ->
     (r, g, b, a) = (f0_0, f0_0, f0_0, f0_0)) /\
    Framebuffer.clear 2 f0_0 f0_0 f0_0 f0_0 (PyFloat (S754_zero true))
      (PyList [PyInt 1; PyInt 1]) (PyList [f1_0; PyInt 2; f0_0; f1_0; PyInt 5; PyInt 6]) w0
    = (returning_none
         (fst (mglo_exec 3%positive
                 (Call_clear r g b a (PyFloat (S754_zero true))
                             (PyTuple [PyInt 1; PyInt 1])) (driver w0))),
       crossed 3 (Call_clear r g b a (PyFloat (S754_zero true))
                             (PyTuple [PyInt 1; PyInt 1])) w0).
Proof.
  apply (clear_channels_are_padded_prefix 2 3 f0_0 f0_0 f0_0 f0_0
           (PyFloat (S754_zero true)) (PyList [PyInt 1; PyInt 1])
           (PyList [f1_0; PyInt 2; f0_0; f1_0; PyInt 5; PyInt 6])
           (PyTuple [PyInt 1; PyInt 1])
           [f1_0; PyInt 2; f0_0; f1_0; PyInt 5; PyInt 6] fb_256 w0); reflexivity.
Defined.

(** What the padding gives on short, empty and long sequences. *)
Example pad4_cases :
  pad4 [] = [f0_0; f0_0; f0_0; f0_0] /\
  pad4 [f1_0] = [f1_0; f0_0; f0_0; f0_0] /\
  pad4 [f1_0; f1_0; f1_0; f1_0; PyInt 9] = [f1_0; f1_0; f1_0; f1_0].
Proof. repeat split. Qed.

Lemma viewport_set_then_get_witness :
  fst ((do! Framebuffer.viewport_setter 2 (PyList [PyInt (-5); PyInt 0; PyInt 100000; PyInt 7])
        in Framebuffer.viewport 2) w0)
  = Ok (PyTuple [PyInt (-5); PyInt 0; PyInt 100000; PyInt 7]) /\
  exists h,
    calls (snd (Framebuffer.viewport_setter 2
                  (PyList [PyInt (-5); PyInt 0; PyInt 100000; PyInt 7]) w0))
    = calls w0
      ++ [(h, Set_viewport (PyTuple [PyInt (-5); PyInt 0; PyInt 100000; PyInt 7]))].
Proof.
  apply (viewport_set_then_get 2 (PyList [PyInt (-5); PyInt 0; PyInt 100000; PyInt 7])
           (-5) 0 100000 7 256 256 w0).
  - apply w0_factory_made.
  - reflexivity.
Defined.

Lemma scissor_none_is_full_size_witness :
  fst ((do! Framebuffer.scissor_setter 4 PyNone in Framebuffer.scissor 4) w0)
  = Ok (PyTuple [PyInt 0; PyInt 0; PyInt 64; PyInt 32]) /\
  fst (Framebuffer.width 4 w0) = Ok (PyInt 64) /\
  fst (Framebuffer.height 4 w0) = Ok (PyInt 32) /\
  behaviour (Framebuffer.scissor_setter 4 PyNone w0)
  = behaviour (Framebuffer.scissor_setter 4
                 (PyTuple [PyInt 0; PyInt 0; PyInt 64; PyInt 32]) w0).
Proof.
  apply (scissor_none_is_full_size 4 64 32 w0). apply w0_factory_made.
Defined.

Lemma clear_viewport_pair_is_origin_box_witness :
  behaviour (Framebuffer.clear_call 2 [f1_0] (PyTuple [PyInt 10; PyInt 20]) PyNone w0)
  = behaviour (Framebuffer.clear_call 2 [f1_0]
                 (PyTuple [PyInt 0; PyInt 0; PyInt 10; PyInt 20]) PyNone w0)
  /\
  Framebuffer.clear_call 2 [f1_0] (PyTuple [PyInt 10; PyInt 20]) PyNone w0
  = (Ok PyNone,
     mkWorld (framebuffers w0) (contexts w0) (buffers w0)
             (mkGl (objects (driver w0)) (bound (driver w0))
                   (commands (driver w0)
                    ++ [GlClear 3 f1_0 f0_0 f0_0 f0_0 (nth 4 [f1_0] f1_0) (0, 0, 10, 20)])
                   (readback (driver w0)))
             (calls w0
              ++ [(3%positive,
                   Call_clear f1_0 f0_0 f0_0 f0_0 (nth 4 [f1_0] f1_0)
                              (PyTuple [PyInt 10; PyInt 20]))]))
  /\
  commands (driver (snd (Framebuffer.clear_call 2 [f1_0]
                           (PyTuple [PyInt 0; PyInt 0; PyInt 10; PyInt 20]) PyNone w0)))
  = commands (driver w0)
    ++ [GlClear 3 f1_0 f0_0 f0_0 f0_0 (nth 4 [f1_0] f1_0) (0, 0, 10, 20)].
Proof.
  split.
  - exact (proj1 (clear_viewport_pair_is_origin_box 2 [f1_0] PyNone 10 20 w0)).
  - apply (proj2 (clear_viewport_pair_is_origin_box 2 [f1_0] PyNone 10 20 w0)
             fb_256 3%positive
             (mkMGL 256 256 (0, 0, 256, 256) (0, 0, 256, 256) all_channels
                    (PyBool true) (PyStr "8888/24"))
             f1_0 f0_0 f0_0 f0_0);
      first [reflexivity | cbn; lia].
Defined.

(** A clear over a shrunk scissor: the pair decides the region, not the
    scissor. *)
Example clear_pair_overrides_scissor :
  commands (driver (run [SetScissor 2 (PyTuple [PyInt 100; PyInt 100; PyInt 50; PyInt 50]);
                         Clear 2 [] (PyTuple [PyInt 10; PyInt 20]) PyNone;
                         Clear 2 [] PyNone PyNone] w0))
  = [GlClear 3 f0_0 f0_0 f0_0 f0_0 f1_0 (0, 0, 10, 20);
     GlClear 3 f0_0 f0_0 f0_0 f0_0 f1_0 (100, 100, 50, 50)].
Proof. reflexivity. Qed.

(** The clear that goes out for a pair: scoped to the box at the origin. *)
Example clear_pair_issues_origin_box :
  commands (driver (run [Clear 2 [f1_0] (PyTuple [PyInt 10; PyInt 20]) PyNone] w0))
  = [GlClear 3 f1_0 f0_0 f0_0 f0_0 f1_0 (0, 0, 10, 20)] /\
  calls (run [Clear 2 [f1_0] (PyTuple [PyInt 10; PyInt 20]) PyNone] w0)
  = [(3%positive, Call_clear f1_0 f0_0 f0_0 f0_0 f1_0 (PyTuple [PyInt 10; PyInt 20]))].
Proof. repeat split. Qed.

(** The scissor after a shrink and a reset. *)
Example scissor_reset :
  fst (Framebuffer.scissor 2
         (run [SetScissor 2 (PyTuple [PyInt 100; PyInt 100; PyInt 200; PyInt 100])] w0))
  = Ok (PyTuple [PyInt 100; PyInt 100; PyInt 200; PyInt 100]) /\
  fst (Framebuffer.scissor 2
         (run [SetScissor 2 (PyTuple [PyInt 100; PyInt 100; PyInt 200; PyInt 100]);
               SetScissor 2 PyNone] w0))
  = Ok (PyTuple [PyInt 0; PyInt 0; PyInt 256; PyInt 256]).
Proof. repeat split. Qed.

End Concrete.

(** * Further properties of the class *)

(** ** Equality and representation *)

Section Equality.
Context {D : Type} `{!Driver D}.

Lemma is_sym (a b : pyval) : is_ a b = is_ b a.
Proof.
  destruct a as [| x | | | | | | c i], b as [| y | | | | | | c' j]; try reflexivity.
  - cbn. now destruct x, y.
  - cbn. rewrite (Pos.eqb_sym i j). now destruct c, c'.
Qed.

Lemma is_mglo (h1 h2 : ref) :
  is_ (PyObject ClsMglo h1) (PyObject ClsMglo h2) = Some (Pos.eqb h1 h2).
Proof. reflexivity. Qed.

(** X1. Two framebuffers that wrap internal objects compare equal exactly
    when they wrap the same internal object, whether or not they are the
    same Python object; the comparison changes nothing and does not cross. *)
Theorem eq_compares_internal_objects (a b h1 h2 : ref) (oa ob : FramebufferObj)
    (w : world D) :
  framebuffers w !! a = Some oa -> mglo oa = Some (PyObject ClsMglo h1) ->
  framebuffers w !! b = Some ob -> mglo ob = Some (PyObject ClsMglo h2) ->
  exists r,
    Framebuffer.__eq__ a (PyObject ClsFramebuffer b) w = (Ok (PyBool r), w) /\
    (r = true <-> h1 = h2).
Proof.
  intros Ha Hma Hb Hmb. exists (Pos.eqb h1 h2). split.
  - unfold Framebuffer.__eq__.
    erewrite bind_ok by (eapply getattr_hit; eassumption).
    erewrite bind_ok by (eapply getattr_hit; eassumption).
    now rewrite is_mglo.
  - apply Pos.eqb_eq.
Qed.

(** X2. Compared with anything that is not a framebuffer, a framebuffer is
    unequal: the answer is [False] without reading any attribute, so it is
    given even for an instance whose slots were never filled. *)
Theorem eq_other_type_is_false (self : ref) (other : pyval) (w : world D) :
  (forall o, other <> PyObject ClsFramebuffer o) ->
  Framebuffer.__eq__ self other w = (Ok (PyBool false), w).
Proof.
  intros Hne. unfold Framebuffer.__eq__.
  destruct other as [| | | | | | | c o]; try reflexivity.
  destruct c; try reflexivity. now destruct (Hne o).
Qed.

(** X3. Equality of framebuffers is symmetric as an operation: for two
    allocated instances [a == b] and [b == a] give the same result, the same
    exception when a slot is missing, and both leave the world as it is. *)
Theorem eq_symmetric (a b : ref) (oa ob : FramebufferObj) (w : world D) :
  framebuffers w !! a = Some oa ->
  framebuffers w !! b = Some ob ->
  Framebuffer.__eq__ a (PyObject ClsFramebuffer b) w
  = Framebuffer.__eq__ b (PyObject ClsFramebuffer a) w /\
  snd (Framebuffer.__eq__ a (PyObject ClsFramebuffer b) w) = w.
Proof.
  intros Ha Hb. unfold Framebuffer.__eq__, bind, getattr. rewrite Ha, Hb.
  destruct (mglo oa) as [x|] eqn:Hx, (mglo ob) as [y|] eqn:Hy;
    cbn -[is_]; rewrite ?Ha, ?Hb, ?Hx, ?Hy; cbn -[is_]; try (split; reflexivity).
  rewrite (is_sym y x). destruct (is_ x y); split; reflexivity.
Qed.

Lemma append_cancel_r (s1 s2 t : string) :
  (s1 ++ t)%string = (s2 ++ t)%string -> s1 = s2.
Proof.
  assert (Hlen : forall a b, String.length (a ++ b)%string
                             = (String.length a + String.length b)%nat).
  { intros a b. induction a as [|c a IH]; simpl; [reflexivity | now f_equal]. }
  revert s2. induction s1 as [|c s1 IH]; intros [|c' s2] E; cbn in E.
  - reflexivity.
  - apply (f_equal String.length) in E. simpl in E. rewrite !Hlen in E.
    simpl in E. lia.
  - apply (f_equal String.length) in E. simpl in E. rewrite !Hlen in E.
    simpl in E. lia.
  - injection E as -> E. f_equal. now apply IH.
Qed.

Lemma decimal_inj (n1 n2 : Z) : decimal n1 = decimal n2 -> n1 = n2.
Proof.
  unfold decimal. intros E. apply DecimalZ.to_int_inj.
  assert (E' : Some (Z.to_int n1) = Some (Z.to_int n2)).
  { rewrite <- !NilEmpty.isi. now rewrite E. }
  now injection E'.
Qed.

(** X4. The representation of a framebuffer whose handle is the integer
    [n] is [<Framebuffer: n>] with [n] in decimal, and it determines the
    handle: two framebuffers, in the same world or not, have the same
    representation exactly when they have the same handle. *)
Theorem repr_determines_glo (a b : ref) (oa ob : FramebufferObj) (n1 n2 : Z)
    (w1 w2 : world D) :
  framebuffers w1 !! a = Some oa -> _glo oa = Some (PyInt n1) ->
  framebuffers w2 !! b = Some ob -> _glo ob = Some (PyInt n2) ->
  Framebuffer.__repr__ a w1 = Formatted ("<Framebuffer: " ++ decimal n1 ++ ">") /\
  (Framebuffer.__repr__ a w1 = Framebuffer.__repr__ b w2 <-> n1 = n2).
Proof.
  intros Ha Hga Hb Hgb.
  assert (Ra : Framebuffer.__repr__ a w1
               = Formatted ("<Framebuffer: " ++ decimal n1 ++ ">")).
  { unfold Framebuffer.__repr__, Framebuffer.glo.
    now rewrite (getattr_hit _glo a w1 oa (PyInt n1) Ha Hga). }
  assert (Rb : Framebuffer.__repr__ b w2
               = Formatted ("<Framebuffer: " ++ decimal n2 ++ ">")).
  { unfold Framebuffer.__repr__, Framebuffer.glo.
    now rewrite (getattr_hit _glo b w2 ob (PyInt n2) Hb Hgb). }
  split; [exact Ra |]. rewrite Ra, Rb. split.
  - intros E. injection E as E.
    apply decimal_inj. exact (append_cancel_r (decimal n1) (decimal n2) ">" E).
  - now intros ->.
Qed.

End Equality.

(** ** Crossings *)

Section Crossings.
Context {D : Type} `{!Driver D}.

Lemma bind_lift {A B} (r : result A) (k : A -> M D B) (w : world D) :
  bind (lift r) k w = match r with Ok a => k a w | Raise e => (Raise e, w) end.
Proof. now destruct r. Qed.

Lemma getattr_world (slot : FramebufferObj -> option pyval) (self : ref) (w : world D) :
  snd (getattr slot self w) = w.
Proof.
  unfold getattr. destruct (framebuffers w !! self) as [o|]; [|reflexivity].
  now destruct (slot o).
Qed.

Lemma getattr_cases (slot : FramebufferObj -> option pyval) (self : ref) (w : world D) :
  (exists o v, framebuffers w !! self = Some o /\ slot o = Some v /\
               getattr slot self w = (Ok v, w)) \/
  (exists e, getattr slot self w = (Raise e, w)).
Proof.
  unfold getattr. destruct (framebuffers w !! self) as [o|]; [|right; now eexists].
  destruct (slot o) as [v|] eqn:Hv; [left; now exists o, v | right; now eexists].
Qed.

Lemma not_crossed (self : option ref) (w : world D) : crossed_at_most_once self w w.
Proof. left. split; reflexivity. Qed.

(** The tail every crossing method ends in. *)
Lemma crossing_tail (self : ref) (c : mglo_call) (w : world D) :
  crossed_at_most_once (Some self) w
    (snd ((let! m := getattr mglo self in call_mglo m c) w)).
Proof.
  destruct (getattr_cases mglo self w) as [(o & v & Ho & Hv & E)|[e E]];
    unfold bind; rewrite E; [|apply not_crossed].
  destruct v as [| | | | | | |k h]; try apply not_crossed.
  destruct k; try apply not_crossed.
  right. exists self, o, h, c. cbn. repeat split; assumption.
Qed.

Lemma crossing_tail_none (self : ref) (c : mglo_call) (w : world D) :
  crossed_at_most_once (Some self) w
    (snd ((let! m := getattr mglo self in do! call_mglo m c in ret PyNone) w)).
Proof.
  destruct (getattr_cases mglo self w) as [(o & v & Ho & Hv & E)|[e E]];
    unfold bind; rewrite E; [|apply not_crossed].
  destruct v as [| | | | | | |k h]; try apply not_crossed.
  destruct k; try apply not_crossed.
  right. exists self, o, h, c. cbn.
  destruct (fst (mglo_exec h c (driver w))); cbn; repeat split; assumption.
Qed.

(** A world that differs from [w] on the Python side only, outside the
    framebuffers, is as good a starting point as [w]. *)
Lemma crossed_from (self : option ref) (w w1 w2 : world D) :
  framebuffers w1 = framebuffers w -> calls w1 = calls w -> driver w1 = driver w ->
  crossed_at_most_once self w1 w2 -> crossed_at_most_once self w w2.
Proof.
  intros Hf Hc Hd [[E1 E2]|(r & o & h & c & Hs & Ho & Hm & E1 & E2)].
  - left. split; congruence.
  - right. exists r, o, h, c. rewrite <- Hf, <- Hc, <- Hd. now repeat split.
Qed.

Lemma clear_crossing (self : ref) (red green blue alpha depth viewport color : pyval)
    (w : world D) :
  crossed_at_most_once (Some self) w
    (snd (Framebuffer.clear self red green blue alpha depth viewport color w)).
Proof.
  unfold Framebuffer.clear. rewrite bind_lift.
  destruct (Framebuffer.clear_channels red green blue alpha color)
    as [[[[r g] b] a]|e]; [|apply not_crossed].
  rewrite bind_lift.
  destruct (Framebuffer.clear_viewport viewport) as [vp|e]; [|apply not_crossed].
  apply crossing_tail_none.
Qed.

Lemma use_crossing (self : ref) (w : world D) :
  crossed_at_most_once (Some self) w (snd (Framebuffer.use self w)).
Proof.
  unfold Framebuffer.use.
  destruct (getattr_cases ctx self w) as [(o & v & Ho & Hv & E)|[e E]];
    unfold bind at 1; rewrite E; [|apply not_crossed].
  unfold bind at 1, setattr_fbo.
  destruct v as [| | | | | | |k c]; try apply not_crossed.
  destruct k; try apply not_crossed.
  destruct (contexts w !! c); [|apply not_crossed].
  eapply crossed_from; [| | |apply crossing_tail_none]; reflexivity.
Qed.

Lemma read_into_crossing (self : ref)
    (buffer viewport components attachment alignment dtype write_offset : pyval)
    (w : world D) :
  crossed_at_most_once (Some self) w
    (snd (Framebuffer.read_into self buffer viewport components attachment
            alignment dtype write_offset w)).
Proof.
  unfold Framebuffer.read_into. unfold bind at 1.
  destruct buffer as [| | | | | | |k b]; try apply crossing_tail.
  destruct k; try apply crossing_tail.
  destruct (buffers w !! b); [apply crossing_tail | apply not_crossed].
Qed.

Lemma field_read_world (slot : FramebufferObj -> option pyval)
    (f : pyval -> result pyval) (self : ref) (w : world D) :
  snd ((let! s := getattr slot self in lift (f s)) w) = w.
Proof.
  unfold bind, lift. pose proof (getattr_world slot self w) as E.
  destruct (getattr slot self w) as [[v|e] w1]; cbn in *; exact E.
Qed.

Lemma setattr_driver (upd : pyval -> FramebufferObj -> FramebufferObj) (self : ref)
    (v : pyval) (w : world D) :
  calls (snd (setattr upd self v w)) = calls w /\
  driver (snd (setattr upd self v w)) = driver w.
Proof. unfold setattr. destruct (framebuffers w !! self); split; reflexivity. Qed.

Lemma perform_crossing (op : operation) (w : world D) :
  crossed_at_most_once (receiver op) w (snd (perform op w)).
Proof.
  destruct op; cbn [perform receiver].
  - destruct (construct_raises args kwargs w) as (r & o' & _ & E).
    rewrite E. left. split; reflexivity.
  - apply crossing_tail.
  - unfold Framebuffer.viewport_setter. rewrite bind_lift.
    destruct (tuple value); [apply crossing_tail_none | apply not_crossed].
  - apply crossing_tail.
  - unfold Framebuffer.scissor_setter.
    destruct value; try apply crossing_tail_none; rewrite bind_lift; cbn [tuple];
      first [apply crossing_tail_none | apply not_crossed].
  - apply crossing_tail.
  - apply crossing_tail_none.
  - apply crossing_tail.
  - apply crossing_tail_none.
  - unfold Framebuffer.width. rewrite field_read_world. apply not_crossed.
  - unfold Framebuffer.height. rewrite field_read_world. apply not_crossed.
  - unfold Framebuffer.size. rewrite getattr_world. apply not_crossed.
  - unfold Framebuffer.samples. rewrite getattr_world. apply not_crossed.
  - apply crossing_tail.
  - unfold Framebuffer.color_attachments. rewrite getattr_world. apply not_crossed.
  - unfold Framebuffer.depth_attachment. rewrite getattr_world. apply not_crossed.
  - unfold Framebuffer.glo. rewrite getattr_world. apply not_crossed.
  - unfold Framebuffer.clear_call.
    destruct positional as [|r [|g [|b [|a [|d [|x rest]]]]]];
      try apply clear_crossing. apply not_crossed.
  - apply use_crossing.
  - apply crossing_tail.
  - apply read_into_crossing.
  - apply crossing_tail_none.
  - unfold Framebuffer.extra_setter, bind. left.
    pose proof (setattr_driver set_extra self value w) as [E1 E2].
    destruct (setattr set_extra self value w) as [[u|e] w1]; cbn in *; now split.
Qed.

End Crossings.

(** ** What an operation leaves alone *)

Section Unchanged.
Context {D : Type} `{!Driver D} {X : Type} (proj : world D -> X).

Lemma unchanged_ret {A} (a : A) : unchanged proj (ret (D := D) a).
Proof. intros w. reflexivity. Qed.

Lemma unchanged_raise {A} (e : exn) : unchanged proj (raise (D := D) (A := A) e).
Proof. intros w. reflexivity. Qed.

Lemma unchanged_lift {A} (r : result A) : unchanged proj (lift (D := D) r).
Proof. intros w. reflexivity. Qed.

Lemma unchanged_bind {A B} (m : M D A) (k : A -> M D B) :
  unchanged proj m -> (forall a, unchanged proj (k a)) -> unchanged proj (bind m k).
Proof.
  intros Hm Hk w. unfold bind. specialize (Hm w).
  destruct (m w) as [[a|e] w1]; cbn in *; [|exact Hm].
  now rewrite Hk.
Qed.

Lemma unchanged_getattr (slot : FramebufferObj -> option pyval) (self : ref) :
  unchanged proj (getattr (D := D) slot self).
Proof. intros w. now rewrite getattr_world. Qed.

Lemma unchanged_setattr (upd : pyval -> FramebufferObj -> FramebufferObj)
    (self : ref) (v : pyval) :
  (forall f w, proj (with_framebuffers f w) = proj w) ->
  unchanged proj (setattr (D := D) upd self v).
Proof.
  intros Hp w. unfold setattr.
  destruct (framebuffers w !! self); [apply Hp | reflexivity].
Qed.

Lemma unchanged_setattr_fbo (target v : pyval) :
  (forall c w, proj (with_contexts c w) = proj w) ->
  unchanged proj (setattr_fbo (D := D) target v).
Proof.
  intros Hp w. unfold setattr_fbo.
  destruct target as [| | | | | | |k c]; try reflexivity.
  destruct k; try reflexivity.
  destruct (contexts w !! c); [apply Hp | reflexivity].
Qed.

Lemma unchanged_call_mglo (target : pyval) (c : mglo_call) :
  (forall h c w, proj (crossed h c w) = proj w) ->
  unchanged proj (call_mglo target c).
Proof.
  intros Hp w. unfold call_mglo.
  destruct target as [| | | | | | |k h]; try reflexivity.
  destruct k; try reflexivity. apply Hp.
Qed.

Lemma unchanged_buffer_mglo (buffer : pyval) :
  unchanged proj
    (match buffer with
     | PyObject ClsBuffer b =>
         fun w : world D =>
           match buffers w !! b with
           | Some o => (Ok (buffer_mglo o), w)
           | None => (Raise SystemError, w)
           end
     | _ => ret buffer
     end).
Proof.
  destruct buffer as [| | | | | | |k b]; try apply unchanged_ret.
  destruct k; try apply unchanged_ret.
  intros w. now destruct (buffers w !! b).
Qed.

Lemma unchanged_clear (self : ref) (red green blue alpha depth viewport color : pyval) :
  (forall h c w, proj (crossed h c w) = proj w) ->
  unchanged proj
    (Framebuffer.clear (D := D) self red green blue alpha depth viewport color).
Proof.
  intros Hp. unfold Framebuffer.clear.
  apply unchanged_bind; [apply unchanged_lift | intros [[[r g] b] a]].
  apply unchanged_bind; [apply unchanged_lift | intros vp].
  apply unchanged_bind; [apply unchanged_getattr | intros m].
  apply unchanged_bind; [now apply unchanged_call_mglo | intros _].
  apply unchanged_ret.
Qed.

Lemma unchanged_clear_call (self : ref) (positional : list pyval) (viewport color : pyval) :
  (forall h c w, proj (crossed h c w) = proj w) ->
  unchanged proj (Framebuffer.clear_call (D := D) self positional viewport color).
Proof.
  intros Hp. unfold Framebuffer.clear_call.
  destruct positional as [|r [|g [|b [|a [|d [|x rest]]]]]];
    try now apply unchanged_clear. apply unchanged_raise.
Qed.

End Unchanged.

Ltac settle Hcross Hfbs Hctx :=
  repeat first
    [ apply unchanged_ret
    | apply unchanged_raise
    | apply unchanged_lift
    | apply unchanged_getattr
    | apply unchanged_buffer_mglo
    | apply unchanged_clear_call; exact Hcross
    | apply unchanged_call_mglo; exact Hcross
    | apply unchanged_setattr; exact Hfbs
    | apply unchanged_setattr_fbo; exact Hctx
    | apply unchanged_bind; [|intros ?] ].

Ltac open_class :=
  unfold Framebuffer.viewport, Framebuffer.viewport_setter, Framebuffer.scissor,
    Framebuffer.scissor_setter, Framebuffer.color_mask, Framebuffer.color_mask_setter,
    Framebuffer.depth_mask, Framebuffer.depth_mask_setter, Framebuffer.width,
    Framebuffer.height, Framebuffer.size, Framebuffer.samples, Framebuffer.bits,
    Framebuffer.color_attachments, Framebuffer.depth_attachment, Framebuffer.glo,
    Framebuffer.use, Framebuffer.read, Framebuffer.read_into,
    Framebuffer.release, Framebuffer.extra_setter.

Section Frames.
Context {D : Type} `{!Driver D}.

(** Buffers are never written. *)
Lemma perform_buffers (op : operation) : unchanged (D := D) buffers (perform op).
Proof.
  assert (Hcross : forall h c (w : world D), buffers (crossed h c w) = buffers w)
    by reflexivity.
  assert (Hfbs : forall f (w : world D), buffers (with_framebuffers f w) = buffers w)
    by reflexivity.
  assert (Hctx : forall c (w : world D), buffers (with_contexts c w) = buffers w)
    by reflexivity.
  destruct op; cbn [perform]; open_class;
    try (settle Hcross Hfbs Hctx; fail).
  - intros w. destruct (construct_raises args kwargs w) as (r & o' & _ & E).
    now rewrite E.
  - destruct value; settle Hcross Hfbs Hctx.
Qed.

(** Contexts are written by [use] only. *)
Lemma perform_contexts (op : operation) :
  (forall self, op <> Use self) -> unchanged (D := D) contexts (perform op).
Proof.
  assert (Hcross : forall h c (w : world D), contexts (crossed h c w) = contexts w)
    by reflexivity.
  assert (Hfbs : forall f (w : world D), contexts (with_framebuffers f w) = contexts w)
    by reflexivity.
  intros Hne.
  destruct op; cbn [perform]; open_class;
    try (settle Hcross Hfbs Hfbs; fail).
  - intros w. destruct (construct_raises args kwargs w) as (r & o' & _ & E).
    now rewrite E.
  - destruct value; settle Hcross Hfbs Hfbs.
  - now destruct (Hne self).
Qed.

(** Framebuffers are written by construction and by [extra] only. *)
Lemma perform_framebuffers (op : operation) :
  (forall a k, op <> Construct a k) -> (forall self v, op <> SetExtra self v) ->
  unchanged (D := D) framebuffers (perform op).
Proof.
  assert (Hcross : forall h c (w : world D),
             framebuffers (crossed h c w) = framebuffers w) by reflexivity.
  assert (Hctx : forall c (w : world D),
             framebuffers (with_contexts c w) = framebuffers w) by reflexivity.
  intros Hn1 Hn2.
  destruct op; cbn [perform]; open_class;
    try (settle Hcross Hctx Hctx; fail).
  - now destruct (Hn1 args kwargs).
  - destruct value; settle Hcross Hctx Hctx.
  - now destruct (Hn2 self value).
Qed.

End Frames.

Section Programs.
Context {D : Type} `{!Driver D}.

(** X5. The operations that do not touch [self.mglo] (the seven read-only
    properties, the [extra] attribute, attempted construction) never enter
    the driver and never write a context or a buffer; the seven properties
    leave the whole world as it was. *)
Theorem field_access_never_crosses (op : operation) (w : world D) :
  crosses op = false ->
  calls (snd (perform op w)) = calls w /\
  driver (snd (perform op w)) = driver w /\
  contexts (snd (perform op w)) = contexts w /\
  buffers (snd (perform op w)) = buffers w /\
  ((forall a k, op <> Construct a k) -> (forall self v, op <> SetExtra self v) ->
   snd (perform op w) = w).
Proof.
  intros Hc.
  assert (Hfbs : forall f (w : world D),
             (fun w => (calls w, driver w, contexts w, buffers w)) (with_framebuffers f w)
             = (calls w, driver w, contexts w, buffers w)) by reflexivity.
  assert (Hall : unchanged (fun w : world D => (calls w, driver w, contexts w, buffers w))
                   (perform op)).
  { destruct op; try discriminate Hc; cbn [perform]; open_class;
      try (settle Hfbs Hfbs Hfbs; fail).
    intros w'. destruct (construct_raises args kwargs w') as (r & o' & _ & E).
    now rewrite E. }
  specialize (Hall w). cbn in Hall. injection Hall as E1 E2 E3 E4.
  repeat (split; [assumption |]).
  intros Hn1 Hn2.
  destruct op; try discriminate Hc; cbn [perform]; open_class;
    try apply getattr_world; try apply field_read_world.
  - now destruct (Hn1 args kwargs).
  - now destruct (Hn2 self value).
Qed.

(** X6. On a plain instance (its [mglo] an internal object, [None] or
    unset, its [ctx] a context, [None] or unset) every operation enters the
    driver at most once, and when it does it is through the internal object
    of the instance it was called on: the trace grows by one entry addressed
    to [self.mglo] and the driver state is the one that crossing produced;
    otherwise trace and driver state are untouched. *)
Theorem one_crossing_on_own_mglo (op : operation) (w : world D) :
  (forall self o,
     receiver op = Some self -> framebuffers w !! self = Some o -> plain o) ->
  crossed_at_most_once (receiver op) w (snd (perform op w)).
Proof. intros _. apply perform_crossing. Qed.

(** [__init__] on an allocated instance, in full. *)
Lemma init_wipes (self : ref) (w : world D) (o : FramebufferObj) :
  framebuffers w !! self = Some o ->
  Framebuffer.__init__ self w
  = (Raise TypeError, with_framebuffers (<[self := wiped]> (framebuffers w)) w).
Proof.
  intros Ho. unfold Framebuffer.__init__.
  erewrite bind_ok by (apply setattr_hit; eassumption).
  repeat (erewrite bind_ok by (apply setattr_hit; cbn; apply lookup_insert_eq);
          cbn; rewrite insert_insert_eq).
  reflexivity.
Qed.

Lemma construct_allocates (args : list pyval) (kwargs : list (string * pyval))
    (w : world D) :
  exists (r : ref) (o' : FramebufferObj),
    framebuffers w !! r = None /\
    (o' = blank \/ o' = wiped) /\
    snd (Framebuffer.construct args kwargs w)
    = with_framebuffers (<[r := o']> (framebuffers w)) w.
Proof.
  set (r := fresh (dom (framebuffers w))).
  assert (Hr : framebuffers w !! r = None).
  { apply not_elem_of_dom. apply is_fresh. }
  exists r. unfold Framebuffer.construct. unfold bind at 1. fold r.
  destruct args as [|a args], kwargs as [|k kwargs];
    try (exists blank; split; [exact Hr | split; [now left | reflexivity]]).
  exists wiped. split; [exact Hr |]. split; [now right |].
  erewrite bind_raise
    by (apply (init_wipes r _ blank); cbn; apply lookup_insert_eq).
  cbn. now rewrite insert_insert_eq.
Qed.

Lemma same_but_extra_trans (o1 o2 o3 : FramebufferObj) :
  same_but_extra o1 o2 -> same_but_extra o2 o3 -> same_but_extra o1 o3.
Proof.
  intros [->|[v ->]] [->|[v' ->]].
  - now left.
  - right. now exists v'.
  - right. now exists v.
  - right. exists v'. now destruct o1.
Qed.

(** One operation: every instance stays, changed at most in [extra]; an
    instance that appears is an abandoned one, without internal object. *)
Lemma perform_instances (op : operation) (w : world D) :
  (forall r o, framebuffers w !! r = Some o ->
     exists o', framebuffers (snd (perform op w)) !! r = Some o' /\ same_but_extra o o') /\
  (forall r o', framebuffers (snd (perform op w)) !! r = Some o' ->
     framebuffers w !! r = None -> o' = blank \/ o' = wiped).
Proof.
  destruct op;
    try (rewrite perform_framebuffers by discriminate;
         split; [intros r o Ho; exists o; split; [exact Ho | now left]
                | intros r o' Ho' Hn; congruence]).
  - cbn [perform]. destruct (construct_allocates args kwargs w) as (r0 & o0 & Hr & Ho0 & E).
    rewrite E. unfold with_framebuffers. cbn. split.
    + intros r o Ho. exists o. split; [|now left].
      rewrite lookup_insert_ne; [exact Ho | congruence].
    + intros r o' Ho' Hn. destruct (decide (r0 = r)) as [->|Hne].
      * rewrite lookup_insert_eq in Ho'. now injection Ho' as <-.
      * rewrite lookup_insert_ne in Ho' by exact Hne. congruence.
  - cbn [perform]. unfold Framebuffer.extra_setter, bind, setattr.
    destruct (framebuffers w !! self) as [os|] eqn:Hs; cbn.
    + split.
      * intros r o Ho. destruct (decide (self = r)) as [->|Hne].
        -- rewrite lookup_insert_eq. exists (set_extra value os). split; [reflexivity |].
           right. exists value. congruence.
        -- rewrite lookup_insert_ne by exact Hne. exists o. split; [exact Ho | now left].
      * intros r o' Ho' Hn. destruct (decide (self = r)) as [->|Hne]; [congruence |].
        rewrite lookup_insert_ne in Ho' by exact Hne. congruence.
    + split; [intros r o Ho; exists o; split; [exact Ho | now left]
             | intros r o' Ho' Hn; congruence].
Qed.

Lemma run_instances (ops : list operation) (w : world D) :
  (forall r o, framebuffers w !! r = Some o ->
     exists o', framebuffers (run ops w) !! r = Some o' /\ same_but_extra o o') /\
  (forall r o', framebuffers (run ops w) !! r = Some o' ->
     framebuffers w !! r = None ->
     forall h, mglo o' <> Some (PyObject ClsMglo h)).
Proof.
  revert w. induction ops as [|op rest IH]; intros w; cbn [run].
  - split; [intros r o Ho; exists o; split; [exact Ho | now left]
           | intros r o' Ho' Hn; congruence].
  - destruct (perform_instances op w) as [P1 P2].
    destruct (IH (snd (perform op w))) as [Q1 Q2]. split.
    + intros r o Ho. destruct (P1 r o Ho) as (o1 & Ho1 & S1).
      destruct (Q1 r o1 Ho1) as (o2 & Ho2 & S2).
      exists o2. split; [exact Ho2 | now apply same_but_extra_trans with o1].
    + intros r o' Ho' Hn h.
      destruct (framebuffers (snd (perform op w)) !! r) as [o1|] eqn:Ho1.
      * destruct (Q1 r o1 Ho1) as (o2 & Ho2 & S2).
        assert (o2 = o') by congruence. subst o2.
        assert (Hm : mglo o' = mglo o1).
        { destruct S2 as [->|[v ->]]; reflexivity. }
        rewrite Hm. destruct (P2 r o1 Ho1 Hn) as [->| ->]; discriminate.
      * now apply (Q2 r o' Ho' Ho1).
Qed.

(** X7. Over any program an instance changes at most in [extra]: it still
    wraps the same internal object and belongs to the same context (and
    keeps its read-only fields), whatever was called on it or on others,
    [release] included. *)
Theorem instance_changes_only_in_extra (ops : list operation) (r : ref)
    (o : FramebufferObj) (w : world D) :
  framebuffers w !! r = Some o ->
  exists o',
    framebuffers (run ops w) !! r = Some o' /\
    same_but_extra o o' /\
    binding o' = binding o.
Proof.
  intros Ho. destruct (run_instances ops w) as [P _].
  destruct (P r o Ho) as (o' & Ho' & S). exists o'.
  split; [exact Ho' |]. split; [exact S |].
  destruct S as [->|[v ->]]; reflexivity.
Qed.

Lemma run_app (ops1 ops2 : list operation) (w : world D) :
  run (ops1 ++ ops2) w = run ops2 (run ops1 w).
Proof.
  revert w. induction ops1 as [|op rest IH]; intros w; cbn; [reflexivity | apply IH].
Qed.

Lemma run_crossings (ops : list operation) (w : world D) :
  exists l,
    calls (run ops w) = calls w ++ l /\
    (length l <= length ops)%nat /\
    (forall h c, In (h, c) l ->
       exists r o, framebuffers w !! r = Some o /\ mglo o = Some (PyObject ClsMglo h)).
Proof.
  revert w. induction ops as [|op rest IH]; intros w; cbn [run].
  - exists []. rewrite app_nil_r. repeat split; [cbn; lia | intros h c []].
  - destruct (IH (snd (perform op w))) as (l & El & Hlen & Hl).
    assert (Hback : forall h c, In (h, c) l ->
              exists r o, framebuffers w !! r = Some o
                          /\ mglo o = Some (PyObject ClsMglo h)).
    { intros h c Hin. destruct (Hl h c Hin) as (r & o1 & Ho1 & Hm1).
      destruct (perform_instances op w) as [P1 P2].
      destruct (framebuffers w !! r) as [o|] eqn:Ho.
      - exists r, o. split; [exact Ho |].
        destruct (P1 r o Ho) as (o2 & Ho2 & S).
        assert (o2 = o1) by congruence. subst o2.
        destruct S as [->|[v ->]]; exact Hm1.
      - destruct (P2 r o1 Ho1 Ho) as [->| ->]; discriminate Hm1. }
    destruct (perform_crossing op w)
      as [[E1 E2]|(r & o & h & c & Hs & Ho & Hm & E1 & E2)].
    + exists l. rewrite El, E1. repeat split; [cbn; lia | exact Hback].
    + exists ((h, c) :: l). rewrite El, E1, <- app_assoc. cbn.
      repeat split; [lia |].
      intros h' c' [Heq|Hin]; [|now apply (Hback h' c')].
      injection Heq as <- <-. now exists r, o.
Qed.

(** X8. A program of [n] operations enters the driver at most [n] times;
    what was in the trace stays, in order; and every crossing goes through
    an internal object that a framebuffer of the initial world wraps: no
    instance left behind by a failed construction ever reaches the driver. *)
Theorem program_crossings_bounded (ops : list operation) (w : world D) :
  exists l,
    calls (run ops w) = calls w ++ l /\
    (length l <= length ops)%nat /\
    (forall h c, In (h, c) l ->
       exists r o, framebuffers w !! r = Some o /\ mglo o = Some (PyObject ClsMglo h)).
Proof. apply run_crossings. Qed.

End Programs.

(** ** The active framebuffer *)

Section Active.
Context {D : Type} `{!Driver D}.

Lemma tail_contexts (self : ref) (c : mglo_call) :
  unchanged (D := D) contexts
    (let! m := getattr mglo self in do! call_mglo m c in ret PyNone).
Proof.
  apply unchanged_bind; [apply unchanged_getattr | intros m].
  apply unchanged_bind; [now apply unchanged_call_mglo | intros _].
  apply unchanged_ret.
Qed.

(** [use] writes the context before it looks at [self.mglo]. *)
Lemma use_contexts (self c : ref) (o : FramebufferObj) (co : ContextObj) (w : world D) :
  framebuffers w !! self = Some o ->
  ctx o = Some (PyObject ClsContext c) ->
  contexts w !! c = Some co ->
  contexts (snd (Framebuffer.use self w))
  = <[c := mkContext (PyObject ClsFramebuffer self)]> (contexts w).
Proof.
  intros Ho Hc Hco. unfold Framebuffer.use.
  erewrite bind_ok by (eapply getattr_hit; eassumption).
  unfold bind at 1, setattr_fbo. rewrite Hco.
  now rewrite tail_contexts.
Qed.

Lemma use_contexts_cases (self : ref) (w : world D) :
  contexts (snd (Framebuffer.use self w)) = contexts w \/
  exists c,
    is_Some (contexts w !! c) /\
    contexts (snd (Framebuffer.use self w))
    = <[c := mkContext (PyObject ClsFramebuffer self)]> (contexts w).
Proof.
  destruct (getattr_cases ctx self w) as [(o & v & Ho & Hv & E)|[e E]].
  - destruct v as [| | | | | | |k c];
      try (left; unfold Framebuffer.use, bind; rewrite E; reflexivity).
    destruct k;
      try (left; unfold Framebuffer.use, bind; rewrite E; reflexivity).
    destruct (contexts w !! c) as [co|] eqn:Hco.
    + right. exists c. split; [now exists co |].
      now apply use_contexts with (o := o) (co := co).
    + left. unfold Framebuffer.use, bind. rewrite E. cbn. now rewrite Hco.
  - left. unfold Framebuffer.use, bind. now rewrite E.
Qed.

Lemma perform_contexts_cases (op : operation) (w : world D) :
  contexts (snd (perform op w)) = contexts w \/
  exists self c,
    op = Use self /\
    is_Some (contexts w !! c) /\
    contexts (snd (perform op w))
    = <[c := mkContext (PyObject ClsFramebuffer self)]> (contexts w).
Proof.
  destruct op; try (left; apply perform_contexts; discriminate).
  cbn [perform]. destruct (use_contexts_cases self w) as [E|(c & Hc & E)].
  - now left.
  - right. now exists self, c.
Qed.

Lemma run_contexts (ops : list operation) (c : ref) (w : world D) :
  contexts (run ops w) !! c = contexts w !! c \/
  exists self,
    In (Use self) ops /\
    is_Some (contexts w !! c) /\
    contexts (run ops w) !! c = Some (mkContext (PyObject ClsFramebuffer self)).
Proof.
  revert w. induction ops as [|op rest IH]; intros w; cbn [run]; [now left |].
  destruct (perform_contexts_cases op w) as [E|(self & c0 & -> & Hc0 & E)].
  - destruct (IH (snd (perform op w))) as [E'|(self & Hin & Hs & E')].
    + left. now rewrite E', E.
    + right. exists self. rewrite E in Hs. repeat split; [now right | exact Hs | exact E'].
  - destruct (decide (c0 = c)) as [->|Hne].
    + right. destruct (IH (snd (perform (Use self) w))) as [E'|(s' & Hin & Hs & E')].
      * exists self. repeat split; [now left | exact Hc0 |].
        rewrite E', E. apply lookup_insert_eq.
      * exists s'. repeat split; [now right | exact Hc0 | exact E'].
    + destruct (IH (snd (perform (Use self) w))) as [E'|(s' & Hin & Hs & E')].
      * left. rewrite E', E. now apply lookup_insert_ne.
      * right. exists s'. rewrite E, lookup_insert_ne in Hs by exact Hne.
        repeat split; [now right | exact Hs | exact E'].
Qed.

Lemma run_buffers (ops : list operation) (w : world D) : buffers (run ops w) = buffers w.
Proof.
  revert w. induction ops as [|op rest IH]; intros w; cbn [run]; [reflexivity |].
  now rewrite IH, perform_buffers.
Qed.

(** X9. In a world of plain instances, over any program, the active
    framebuffer of a context is what it was, or it is a framebuffer on which
    the program called [use]; and no context appears that was not there. *)
Theorem active_changes_only_by_use (ops : list operation) (c : ref) (w : world D) :
  well_formed w ->
  contexts (run ops w) !! c = contexts w !! c \/
  exists self,
    In (Use self) ops /\
    is_Some (contexts w !! c) /\
    contexts (run ops w) !! c = Some (mkContext (PyObject ClsFramebuffer self)).
Proof. intros _. apply run_contexts. Qed.

(** X10. [use] records the receiver in its context before it calls the
    driver: for a framebuffer with a context and an internal object, the
    context holds the receiver afterwards whatever the driver answers, the
    driver is entered once with [use], and an exception of the driver
    reaches the caller with the context already changed. *)
Theorem use_records_before_calling (self c h : ref) (o : FramebufferObj)
    (co : ContextObj) (w : world D) :
  framebuffers w !! self = Some o ->
  ctx o = Some (PyObject ClsContext c) ->
  contexts w !! c = Some co ->
  mglo o = Some (PyObject ClsMglo h) ->
  contexts (snd (Framebuffer.use self w)) !! c
  = Some (mkContext (PyObject ClsFramebuffer self)) /\
  calls (snd (Framebuffer.use self w)) = calls w ++ [(h, Call_use)] /\
  fst (Framebuffer.use self w) = returning_none (fst (mglo_exec h Call_use (driver w))).
Proof.
  intros Ho Hc Hco Hm. split.
  - rewrite (use_contexts self c o co w Ho Hc Hco). apply lookup_insert_eq.
  - assert (E : Framebuffer.use self w
                 = (returning_none (fst (mglo_exec h Call_use (driver w))),
                    crossed h Call_use
                      (with_contexts
                         (<[c := mkContext (PyObject ClsFramebuffer self)]> (contexts w))
                         w))).
    { unfold Framebuffer.use.
      erewrite bind_ok by (eapply getattr_hit; eassumption).
      unfold bind at 1, setattr_fbo. rewrite Hco. cbn beta iota.
      exact (final_crossing self h Call_use
               (with_contexts
                  (<[c := mkContext (PyObject ClsFramebuffer self)]> (contexts w)) w)
               o Ho Hm). }
    rewrite E. split; reflexivity.
Qed.

Lemma use_at_end (ops : list operation) (b c : ref) (o : FramebufferObj)
    (w : world D) :
  framebuffers w !! b = Some o ->
  ctx o = Some (PyObject ClsContext c) ->
  is_Some (contexts w !! c) ->
  contexts (run (ops ++ [Use b]) w) !! c
  = Some (mkContext (PyObject ClsFramebuffer b)).
Proof.
  intros Ho Hc Hco. rewrite run_app. cbn [run perform].
  destruct (run_instances ops w) as [P _].
  destruct (P b o Ho) as (o' & Ho' & S).
  assert (Hc' : ctx o' = Some (PyObject ClsContext c)).
  { destruct S as [->|[v ->]]; exact Hc. }
  assert (Hco' : is_Some (contexts (run ops w) !! c)).
  { destruct (run_contexts ops c w) as [E|(s & _ & _ & E)]; rewrite E; [exact Hco | eauto]. }
  destruct Hco' as [co Hco'].
  rewrite (use_contexts b c o' co (run ops w) Ho' Hc' Hco'). apply lookup_insert_eq.
Qed.

(** X11. The last [use] wins: in a world of plain instances, after any
    program that ends with [use] on a framebuffer of context [c], that
    framebuffer is the active one of [c], whatever the program did before
    and whatever the driver answered. *)
Theorem last_use_wins (ops : list operation) (b c : ref) (o : FramebufferObj)
    (w : world D) :
  well_formed w ->
  framebuffers w !! b = Some o ->
  ctx o = Some (PyObject ClsContext c) ->
  is_Some (contexts w !! c) ->
  contexts (run (ops ++ [Use b]) w) !! c
  = Some (mkContext (PyObject ClsFramebuffer b)).
Proof. intros _. apply use_at_end. Qed.

End Active.

(** ** Errors and coercions *)

Section Edges.
Context {D : Type} `{!Driver D}.

Lemma tail_raises (self : ref) (c : mglo_call) (o : FramebufferObj) (w : world D) :
  framebuffers w !! self = Some o ->
  (forall h, mglo o <> Some (PyObject ClsMglo h)) ->
  fst ((let! m := getattr mglo self in call_mglo m c) w) = Raise AttributeError /\
  fst ((let! m := getattr mglo self in do! call_mglo m c in ret PyNone) w)
  = Raise AttributeError.
Proof.
  intros Ho Hn. unfold bind, getattr. rewrite Ho.
  destruct (mglo o) as [m|] eqn:Hm; [|split; reflexivity].
  destruct m as [| | | | | | |k h]; try (split; reflexivity).
  destruct k; try (split; reflexivity). now destruct (Hn h).
Qed.

Lemma raises_after_lift {A} (r : result A) (k : A -> M D pyval) (w : world D) :
  (forall a, exists e, fst (k a w) = Raise e) ->
  exists e, fst (bind (lift r) k w) = Raise e.
Proof.
  intros Hk. rewrite bind_lift. destruct r as [a|e]; [apply Hk | now exists e].
Qed.

Lemma unwrapped_raises (op : operation) (self : ref)
    (o : FramebufferObj) (w : world D) :
  receiver op = Some self ->
  framebuffers w !! self = Some o ->
  (forall h, mglo o <> Some (PyObject ClsMglo h)) ->
  calls (snd (perform op w)) = calls w /\
  driver (snd (perform op w)) = driver w /\
  (crosses op = true -> exists e, fst (perform op w) = Raise e).
Proof.
  intros Hr Ho Hn.
  assert (Hquiet : calls (snd (perform op w)) = calls w /\
                   driver (snd (perform op w)) = driver w).
  { destruct (perform_crossing op w)
      as [E|(r & o' & h & c & Hs & Ho' & Hm & _)]; [exact E |].
    rewrite Hr in Hs. injection Hs as <-.
    rewrite Ho in Ho'. injection Ho' as <-. now destruct (Hn h). }
  destruct Hquiet as [E1 E2]. repeat (split; [assumption |]).
  intros Hc.
  assert (T1 : forall c, exists e,
             fst ((let! m := getattr mglo self in call_mglo m c) w) = Raise e).
  { intros c. eexists. apply (tail_raises self c o w Ho Hn). }
  assert (T2 : forall c, exists e,
             fst ((let! m := getattr mglo self in do! call_mglo m c in ret PyNone) w)
             = Raise e).
  { intros c. eexists. apply (tail_raises self c o w Ho Hn). }
  destruct op; try discriminate Hc; cbn [receiver] in Hr; injection Hr as ->;
    cbn [perform]; try apply T1; try apply T2.
  - unfold Framebuffer.viewport_setter. apply raises_after_lift. intros t. apply T2.
  - unfold Framebuffer.scissor_setter.
    destruct value; try apply T2; apply raises_after_lift; intros t; apply T2.
  - unfold Framebuffer.clear_call.
    destruct positional as [|r [|g [|b [|a [|d [|x rest]]]]]];
      try (now exists TypeError);
      unfold Framebuffer.clear;
      (apply raises_after_lift; intros [[[r' g'] b'] a'];
       apply raises_after_lift; intros vp; apply T2).
  - unfold Framebuffer.use.
    destruct (getattr_cases ctx self w) as [(o' & v & Ho' & Hv & E)|[e E]];
      unfold bind at 1; rewrite E; [|now exists e].
    unfold bind at 1, setattr_fbo.
    destruct v as [| | | | | | |k c]; try (now exists AttributeError).
    destruct k; try (now exists AttributeError).
    destruct (contexts w !! c); [|now exists SystemError].
    exists AttributeError.
    exact (proj2 (tail_raises self Call_use o
                    (with_contexts
                       (<[c := mkContext (PyObject ClsFramebuffer self)]> (contexts w)) w)
                    Ho Hn)).
  - unfold Framebuffer.read_into. unfold bind at 1.
    destruct buffer as [| | | | | | |k b]; try apply T1.
    destruct k; try apply T1.
    destruct (buffers w !! b); [apply T1 | now exists SystemError].
Qed.

(** X12. On an instance without internal object, as [__init__] leaves one
    (its [mglo] [None] or unset, its [ctx] a context, [None] or unset), every
    operation that needs the driver raises, and no operation enters the
    driver. *)
Theorem no_internal_object_no_crossing (op : operation) (self : ref)
    (o : FramebufferObj) (w : world D) :
  receiver op = Some self ->
  framebuffers w !! self = Some o ->
  mglo o = None \/ mglo o = Some PyNone ->
  slot_plain ClsContext (ctx o) ->
  calls (snd (perform op w)) = calls w /\
  driver (snd (perform op w)) = driver w /\
  (crosses op = true -> exists e, fst (perform op w) = Raise e).
Proof.
  intros Hr Ho Hm _. apply (unwrapped_raises op self o w Hr Ho).
  intros h E. destruct Hm as [Hm|Hm]; rewrite Hm in E; discriminate E.
Qed.

(** X13. [__init__] called on an existing instance raises [TypeError] only
    after it has overwritten the instance: every slot is [None] and the size
    is [(None, None)] afterwards.  Nothing else is touched: other
    instances, contexts, driver, trace. *)
Theorem init_wipes_instance (self : ref) (o : FramebufferObj) (w : world D) :
  framebuffers w !! self = Some o ->
  exists w',
    Framebuffer.__init__ self w = (Raise TypeError, w') /\
    framebuffers w' !! self = Some wiped /\
    (forall r, r <> self -> framebuffers w' !! r = framebuffers w !! r) /\
    contexts w' = contexts w /\ driver w' = driver w /\ calls w' = calls w /\
    fst (Framebuffer.size self w') = Ok (PyTuple [PyNone; PyNone]) /\
    fst (Framebuffer.viewport self w') = Raise AttributeError.
Proof.
  intros Ho. eexists. split; [apply (init_wipes self w o Ho) |].
  unfold with_framebuffers. cbn [framebuffers contexts driver calls].
  split; [apply lookup_insert_eq |].
  split; [intros r Hne; apply lookup_insert_ne; congruence |].
  repeat (split; [reflexivity |]). split.
  - unfold Framebuffer.size, getattr. cbn [framebuffers].
    now rewrite lookup_insert_eq.
  - apply (tail_raises self Get_viewport wiped).
    + cbn [framebuffers]. apply lookup_insert_eq.
    + intros h. discriminate.
Qed.

Lemma tuple_raise_rejected (self : ref) (value : pyval) (e : exn)
    (red green blue alpha depth other : pyval) (w : world D) :
  tuple value = Raise e ->
  e = TypeError /\
  Framebuffer.viewport_setter self value w = (Raise TypeError, w) /\
  (value <> PyNone ->
   Framebuffer.scissor_setter self value w = (Raise TypeError, w) /\
   Framebuffer.clear self red green blue alpha depth other value w
   = (Raise TypeError, w) /\
   Framebuffer.clear self red green blue alpha depth value PyNone w
   = (Raise TypeError, w)).
Proof.
  intros Ht.
  assert (He : e = TypeError).
  { destruct value; cbn in Ht; congruence. }
  subst e. split; [reflexivity |]. split.
  - unfold Framebuffer.viewport_setter. rewrite bind_lift. now rewrite Ht.
  - intros Hne. repeat split.
    + unfold Framebuffer.scissor_setter.
      destruct value; try congruence; try discriminate Ht; reflexivity.
    + unfold Framebuffer.clear. rewrite bind_lift. unfold Framebuffer.clear_channels.
      destruct value; try congruence; try discriminate Ht; reflexivity.
    + unfold Framebuffer.clear. rewrite bind_lift. cbn [Framebuffer.clear_channels].
      rewrite bind_lift. unfold Framebuffer.clear_viewport.
      destruct value; try congruence; try discriminate Ht; reflexivity.
Qed.

(** X14. A value that cannot be iterated ([None], a boolean, a number, a
    framebuffer) is rejected by this layer, with [TypeError], before the
    driver is entered and with the world untouched: by the [viewport] setter
    ([None] included), by the [scissor] setter, and by [clear] for its
    [viewport] and for its [color]. *)
Theorem non_iterable_rejected_before_crossing (self : ref) (value : pyval)
    (red green blue alpha depth other : pyval) (w : world D) :
  not_iterable value ->
  Framebuffer.viewport_setter self value w = (Raise TypeError, w) /\
  (value <> PyNone ->
   Framebuffer.scissor_setter self value w = (Raise TypeError, w) /\
   Framebuffer.clear self red green blue alpha depth other value w
   = (Raise TypeError, w) /\
   Framebuffer.clear self red green blue alpha depth value PyNone w
   = (Raise TypeError, w)).
Proof.
  intros Hn.
  assert (Ht : tuple value = Raise TypeError).
  { destruct value as [| | | | | | |k i]; try destruct k; cbn in Hn;
      try contradiction; reflexivity. }
  apply (tuple_raise_rejected self value TypeError red green blue alpha depth other w Ht).
Qed.

(** X15. Sequences are interchangeable: two values with the same elements
    (a list and a tuple, say) given to the [viewport] setter, to the
    [scissor] setter, or to [clear] as [viewport] or as [color], give the
    same result and the same world, trace included. *)
Theorem same_elements_same_call (self : ref) (a b : pyval) (t : list pyval)
    (red green blue alpha depth other : pyval) (w : world D) :
  tuple a = Ok t -> tuple b = Ok t ->
  Framebuffer.viewport_setter self a w = Framebuffer.viewport_setter self b w /\
  Framebuffer.scissor_setter self a w = Framebuffer.scissor_setter self b w /\
  Framebuffer.clear self red green blue alpha depth a other w
  = Framebuffer.clear self red green blue alpha depth b other w /\
  Framebuffer.clear self red green blue alpha depth other a w
  = Framebuffer.clear self red green blue alpha depth other b w.
Proof.
  intros Ha Hb.
  assert (Hs : forall v, tuple v = Ok t ->
             Framebuffer.scissor_setter self v w
             = (let! m := getattr mglo self in
                do! call_mglo m (Set_scissor (PyTuple t)) in ret PyNone) w).
  { intros v Hv. unfold Framebuffer.scissor_setter.
    destruct v; try discriminate Hv; rewrite bind_lift, Hv; reflexivity. }
  assert (Hv : forall v, tuple v = Ok t -> Framebuffer.clear_viewport v = Ok (PyTuple t)).
  { intros v Hv. unfold Framebuffer.clear_viewport.
    destruct v; try discriminate Hv; now rewrite Hv. }
  repeat split.
  - unfold Framebuffer.viewport_setter. now rewrite Ha, Hb.
  - now rewrite (Hs a Ha), (Hs b Hb).
  - unfold Framebuffer.clear. now rewrite (Hv a Ha), (Hv b Hb).
  - unfold Framebuffer.clear.
    now rewrite (clear_channels_color red green blue alpha a t Ha),
      (clear_channels_color red green blue alpha b t Hb).
Qed.

(** X16. [read_into] with a [Buffer] is [read_into] with the internal object
    of that buffer: same result, same world, same trace. *)
Theorem read_into_buffer_is_its_mglo (self b : ref) (bo : BufferObj)
    (viewport components attachment alignment dtype write_offset : pyval)
    (w : world D) :
  buffers w !! b = Some bo ->
  (forall b', buffer_mglo bo <> PyObject ClsBuffer b') ->
  Framebuffer.read_into self (PyObject ClsBuffer b) viewport components attachment
    alignment dtype write_offset w
  = Framebuffer.read_into self (buffer_mglo bo) viewport components attachment
      alignment dtype write_offset w.
Proof.
  intros Hb Hn. unfold Framebuffer.read_into. unfold bind at 1 3. rewrite Hb.
  destruct (buffer_mglo bo) as [| | | | | | |k b'] eqn:E; try reflexivity.
  destruct k; try reflexivity. now destruct (Hn b').
Qed.

(** X17. [size] is [(width, height)]: when [size] gives a pair, [width]
    gives its first component and [height] its second; when it gives a
    sequence too short for that, [height] raises [IndexError]. *)
Theorem size_is_width_height (self : ref) (w : world D) :
  (forall a b, fst (Framebuffer.size self w) = Ok (PyTuple [a; b]) ->
     fst (Framebuffer.width self w) = Ok a /\ fst (Framebuffer.height self w) = Ok b) /\
  (forall a, fst (Framebuffer.size self w) = Ok (PyTuple [a]) ->
     fst (Framebuffer.width self w) = Ok a /\
     fst (Framebuffer.height self w) = Raise IndexError) /\
  (forall e, fst (Framebuffer.size self w) = Raise e ->
     fst (Framebuffer.width self w) = Raise e /\
     fst (Framebuffer.height self w) = Raise e).
Proof.
  unfold Framebuffer.width, Framebuffer.height. rewrite !fst_bind_lift.
  fold (Framebuffer.size (D := D) self).
  split; [|split]; intros; match goal with E : fst _ = _ |- _ => rewrite E end;
    split; reflexivity.
Qed.

End Edges.

(** ** The grid of the perspective example *)

Section Grid.
Import PerspectiveProjection.

Lemma grid_upto_S (n : nat) :
  grid_upto (S n) = grid_body (grid_upto n) (Z.of_nat n).
Proof.
  unfold grid_upto. rewrite seq_S, List.map_app, fold_left_app. reflexivity.
Qed.

Lemma grid_length (n : nat) : length (grid_upto n) = (2 * n)%nat.
Proof.
  induction n as [|n IH]; [reflexivity |].
  rewrite grid_upto_S. unfold grid_body. rewrite !length_app, IH. cbn. lia.
Qed.

Lemma scalars_app (l1 l2 : list pyval) :
  scalars (l1 ++ l2) = (scalars l1 + scalars l2)%nat.
Proof. unfold scalars. now rewrite List.map_app, list_sum_app. Qed.

(** X18. The loop over [range(n)] leaves [2 n] rows of six scalars each,
    that is [4 n] vertices of three coordinates; for the [range(65)] of the
    example these are exactly the [65 * 4] vertices the render call draws. *)
Theorem grid_holds_the_rendered_vertices (n : nat) :
  length (grid_upto n) = (2 * n)%nat /\
  Forall (fun row => exists l, row = PyList l /\ length l = 6%nat) (grid_upto n) /\
  scalars (grid_upto n) = (3 * (4 * n))%nat /\
  Z.of_nat (scalars grid) = 3 * render_vertices.
Proof.
  split; [apply grid_length |]. split; [|split; [|reflexivity]].
  - induction n as [|n IH]; [constructor |].
    rewrite grid_upto_S. unfold grid_body.
    repeat (apply Forall_app; split); [exact IH | |];
      constructor; [|constructor | |constructor]; eexists; split; reflexivity.
  - induction n as [|n IH]; [reflexivity |].
    rewrite grid_upto_S. unfold grid_body. rewrite !scalars_app, IH. cbn. lia.
Qed.

(** X19. Row [2 i] of the grid is the segment from [(i - 32, -32.0, 0.0)] to
    [(i - 32, 32.0, 0.0)] and row [2 i + 1] the segment from
    [(-32.0, i - 32, 0.0)] to [(32.0, i - 32, 0.0)], for every [i] below the
    loop bound: one line along each axis per step, all in the plane z = 0. *)
Theorem grid_rows_are_axis_lines (n i : nat) :
  (i < n)%nat ->
  grid_upto n !! (2 * i)%nat
  = Some (PyList [PyInt (Z.of_nat i - 32); fm32_0; f0_0;
                  PyInt (Z.of_nat i - 32); f32_0; f0_0]) /\
  grid_upto n !! (2 * i + 1)%nat
  = Some (PyList [fm32_0; PyInt (Z.of_nat i - 32); f0_0;
                  f32_0; PyInt (Z.of_nat i - 32); f0_0]).
Proof.
  induction n as [|n IH]; intros Hi; [lia |].
  rewrite grid_upto_S. unfold grid_body.
  destruct (decide (i < n)%nat) as [Hlt|Hge].
  - destruct (IH Hlt) as [E1 E2]. pose proof (grid_length n) as Hlen.
    rewrite <- !app_assoc. split.
    + rewrite lookup_app_l by lia. exact E1.
    + rewrite lookup_app_l by lia. exact E2.
  - assert (i = n) by lia. subst i. pose proof (grid_length n) as Hlen. split.
    + rewrite <- app_assoc. rewrite lookup_app_r by lia.
      replace (2 * n - length (grid_upto n))%nat with 0%nat by lia. reflexivity.
    + rewrite lookup_app_r by (rewrite length_app; cbn; lia).
      rewrite length_app. cbn [length].
      replace (2 * n + 1 - (length (grid_upto n) + 1))%nat with 0%nat by lia.
      reflexivity.
Qed.

End Grid.

(** ** The further properties on the concrete world *)

Section MoreConcrete.
Import MglSpec Example PerspectiveProjection.

Lemma fb_256_plain : plain fb_256.
Proof. split; right; right; eexists; reflexivity. Qed.

Lemma fb_64_plain : plain fb_64.
Proof. split; right; right; eexists; reflexivity. Qed.

Lemma wiped_plain : plain wiped.
Proof. split; right; left; reflexivity. Qed.

Lemma w0_well_formed : well_formed w0.
Proof.
  intros r o Ho. unfold w0 in Ho. cbn [framebuffers] in Ho.
  apply lookup_insert_Some in Ho as [[_ <-]|[_ Ho]]; [apply fb_64_plain |].
  apply lookup_singleton_Some in Ho as [_ <-]. apply fb_256_plain.
Qed.

Lemma one_crossing_on_own_mglo_witness :
  crossed_at_most_once (Some 2%positive) w0
    (snd (perform (Clear 2 [f1_0] (PyTuple [PyInt 4; PyInt 4]) PyNone) w0)).
Proof.
  apply (one_crossing_on_own_mglo (Clear 2 [f1_0] (PyTuple [PyInt 4; PyInt 4]) PyNone) w0).
  intros self o _ Ho. exact (w0_well_formed self o Ho).
Defined.

Lemma active_changes_only_by_use_witness :
  contexts (run program w0) !! 1%positive = contexts w0 !! 1%positive \/
  exists self,
    In (Use self) program /\
    is_Some (contexts w0 !! 1%positive) /\
    contexts (run program w0) !! 1%positive
    = Some (mkContext (PyObject ClsFramebuffer self)).
Proof. apply (active_changes_only_by_use program 1 w0). exact w0_well_formed. Defined.

Lemma eq_compares_internal_objects_witness :
  exists r,
    Framebuffer.__eq__ 2 (PyObject ClsFramebuffer 6) w1 = (Ok (PyBool r), w1) /\
    (r = true <-> 3%positive = 3%positive).
Proof.
  apply (eq_compares_internal_objects 2 6 3 3 fb_256 fb_256 w1); reflexivity.
Defined.

(** Two Python objects around one internal object are equal; two
    framebuffers of one context are not. *)
Example eq_on_aliases :
  fst (Framebuffer.__eq__ 2 (PyObject ClsFramebuffer 6) w1) = Ok (PyBool true) /\
  fst (Framebuffer.__eq__ 2 (PyObject ClsFramebuffer 4) w1) = Ok (PyBool false) /\
  fst (Framebuffer.__eq__ 2 (PyObject ClsFramebuffer 2) w1) = Ok (PyBool true).
Proof. repeat split. Qed.

Lemma eq_other_type_is_false_witness :
  Framebuffer.__eq__ 2 (PyObject ClsTexture 7) w0 = (Ok (PyBool false), w0).
Proof.
  apply (eq_other_type_is_false 2 (PyObject ClsTexture 7) w0). intros o. discriminate.
Defined.

Lemma eq_symmetric_witness :
  Framebuffer.__eq__ 2 (PyObject ClsFramebuffer 4) w0
  = Framebuffer.__eq__ 4 (PyObject ClsFramebuffer 2) w0 /\
  snd (Framebuffer.__eq__ 2 (PyObject ClsFramebuffer 4) w0) = w0.
Proof. apply (eq_symmetric 2 4 fb_256 fb_64 w0); reflexivity. Defined.

Lemma repr_determines_glo_witness :
  Framebuffer.__repr__ 2 w0 = Formatted ("<Framebuffer: " ++ decimal 1 ++ ">") /\
  (Framebuffer.__repr__ 2 w0 = Framebuffer.__repr__ 4 w1 <-> 1 = 2).
Proof. apply (repr_determines_glo 2 4 fb_256 fb_64 1 2 w0 w1); reflexivity. Defined.

Example repr_examples :
  Framebuffer.__repr__ 2 w0 = Formatted "<Framebuffer: 1>" /\
  Framebuffer.__repr__ 4 w0 = Formatted "<Framebuffer: 2>" /\
  Framebuffer.__repr__ 2 (snd (Framebuffer.__init__ 2 w0)) = FormatRaise TypeError /\
  format_d "<Framebuffer: " ">" (PyInt (-40)) = Formatted "<Framebuffer: -40>" /\
  format_d "<Framebuffer: " ">" (PyTuple [PyInt 3]) = Formatted "<Framebuffer: 3>" /\
  format_d "<Framebuffer: " ">" (PyTuple [PyInt 3; PyInt 4]) = FormatRaise TypeError /\
  format_d "<Framebuffer: " ">" (PyFloat (S754_finite true 3 (-1)))
  = Formatted "<Framebuffer: -1>".
Proof. repeat split. Qed.

Lemma field_access_never_crosses_witness :
  calls (snd (perform (GetWidth 2) w0)) = calls w0 /\
  driver (snd (perform (GetWidth 2) w0)) = driver w0 /\
  contexts (snd (perform (GetWidth 2) w0)) = contexts w0 /\
  buffers (snd (perform (GetWidth 2) w0)) = buffers w0 /\
  ((forall a k, GetWidth 2 <> Construct a k) ->
   (forall self v, GetWidth 2 <> SetExtra self v) ->
   snd (perform (GetWidth 2) w0) = w0).
Proof. apply (field_access_never_crosses (GetWidth 2) w0). reflexivity. Defined.

Lemma instance_changes_only_in_extra_witness :
  exists o',
    framebuffers (run program w0) !! 2%positive = Some o' /\
    same_but_extra fb_256 o' /\
    binding o' = binding fb_256.
Proof. apply (instance_changes_only_in_extra program 2 fb_256 w0). reflexivity. Defined.

(** The crossings of the session, in order: eight for eleven operations,
    none of them from the two attempted constructions or from [extra]. *)
Example program_trace :
  List.map fst (calls (run program w0))
  = [3; 3; 3; 3; 5; 3; 3; 3]%positive /\
  length program = 11%nat.
Proof. split; reflexivity. Qed.

Lemma use_records_before_calling_witness :
  contexts (snd (Framebuffer.use 4 (run [Release 4] w0))) !! 1%positive
  = Some (mkContext (PyObject ClsFramebuffer 4)) /\
  calls (snd (Framebuffer.use 4 (run [Release 4] w0)))
  = calls (run [Release 4] w0) ++ [(5%positive, Call_use)] /\
  fst (Framebuffer.use 4 (run [Release 4] w0))
  = returning_none (fst (mglo_exec 5%positive Call_use (driver (run [Release 4] w0)))).
Proof.
  apply (use_records_before_calling 4 1 5 fb_64 (mkContext PyNone)
           (run [Release 4] w0)); reflexivity.
Defined.

(** [use] on a released framebuffer: the driver refuses, the context has
    changed all the same. *)
Example use_after_release :
  fst (Framebuffer.use 4 (run [Release 4] w0)) = Raise (MglError "released") /\
  contexts (snd (Framebuffer.use 4 (run [Release 4] w0))) !! 1%positive
  = Some (mkContext (PyObject ClsFramebuffer 4)) /\
  bound (driver (snd (Framebuffer.use 4 (run [Release 4] w0)))) = None.
Proof. repeat split. Qed.

Lemma last_use_wins_witness :
  contexts (run (program ++ [Use 4]) w0) !! 1%positive
  = Some (mkContext (PyObject ClsFramebuffer 4)).
Proof.
  apply (last_use_wins program 4 1 fb_64 w0);
    [exact w0_well_formed | reflexivity | reflexivity |].
  exists (mkContext PyNone). reflexivity.
Defined.

Lemma no_internal_object_no_crossing_witness :
  calls (snd (perform (Clear 2 [] PyNone PyNone) (snd (Framebuffer.__init__ 2 w0))))
  = calls (snd (Framebuffer.__init__ 2 w0)) /\
  driver (snd (perform (Clear 2 [] PyNone PyNone) (snd (Framebuffer.__init__ 2 w0))))
  = driver (snd (Framebuffer.__init__ 2 w0)) /\
  (crosses (Clear 2 [] PyNone PyNone) = true ->
   exists e,
     fst (perform (Clear 2 [] PyNone PyNone) (snd (Framebuffer.__init__ 2 w0)))
     = Raise e).
Proof.
  apply (no_internal_object_no_crossing (Clear 2 [] PyNone PyNone) 2 wiped
           (snd (Framebuffer.__init__ 2 w0))).
  - reflexivity.
  - reflexivity.
  - right. reflexivity.
  - right. left. reflexivity.
Defined.

Lemma init_wipes_instance_witness :
  exists w',
    Framebuffer.__init__ 2 w0 = (Raise TypeError, w') /\
    framebuffers w' !! 2%positive = Some wiped /\
    (forall r, r <> 2%positive -> framebuffers w' !! r = framebuffers w0 !! r) /\
    contexts w' = contexts w0 /\ driver w' = driver w0 /\ calls w' = calls w0 /\
    fst (Framebuffer.size 2 w') = Ok (PyTuple [PyNone; PyNone]) /\
    fst (Framebuffer.viewport 2 w') = Raise AttributeError.
Proof. apply (init_wipes_instance 2 fb_256 w0). reflexivity. Defined.

Lemma non_iterable_rejected_before_crossing_witness :
  Framebuffer.viewport_setter 2 (PyInt 5) w0 = (Raise TypeError, w0) /\
  (PyInt 5 <> PyNone ->
   Framebuffer.scissor_setter 2 (PyInt 5) w0 = (Raise TypeError, w0) /\
   Framebuffer.clear 2 f0_0 f0_0 f0_0 f0_0 f1_0 PyNone (PyInt 5) w0
   = (Raise TypeError, w0) /\
   Framebuffer.clear 2 f0_0 f0_0 f0_0 f0_0 f1_0 (PyInt 5) PyNone w0
   = (Raise TypeError, w0)).
Proof.
  apply (non_iterable_rejected_before_crossing 2 (PyInt 5)
           f0_0 f0_0 f0_0 f0_0 f1_0 PyNone w0). exact I.
Defined.

(** [viewport = None] is a [TypeError] of this layer; [scissor = None]
    crosses. *)
Example none_for_viewport_and_scissor :
  Framebuffer.viewport_setter 2 PyNone w0 = (Raise TypeError, w0) /\
  calls (snd (Framebuffer.scissor_setter 2 PyNone w0))
  = [(3%positive, Set_scissor PyNone)].
Proof. split; reflexivity. Qed.

Lemma same_elements_same_call_witness :
  Framebuffer.viewport_setter 2 (PyList [PyInt 0; PyInt 0; PyInt 8; PyInt 8]) w0
  = Framebuffer.viewport_setter 2 (PyTuple [PyInt 0; PyInt 0; PyInt 8; PyInt 8]) w0 /\
  Framebuffer.scissor_setter 2 (PyList [PyInt 0; PyInt 0; PyInt 8; PyInt 8]) w0
  = Framebuffer.scissor_setter 2 (PyTuple [PyInt 0; PyInt 0; PyInt 8; PyInt 8]) w0 /\
  Framebuffer.clear 2 f0_0 f0_0 f0_0 f0_0 f1_0
    (PyList [PyInt 0; PyInt 0; PyInt 8; PyInt 8]) PyNone w0
  = Framebuffer.clear 2 f0_0 f0_0 f0_0 f0_0 f1_0
      (PyTuple [PyInt 0; PyInt 0; PyInt 8; PyInt 8]) PyNone w0 /\
  Framebuffer.clear 2 f0_0 f0_0 f0_0 f0_0 f1_0 PyNone
    (PyList [PyInt 0; PyInt 0; PyInt 8; PyInt 8]) w0
  = Framebuffer.clear 2 f0_0 f0_0 f0_0 f0_0 f1_0 PyNone
      (PyTuple [PyInt 0; PyInt 0; PyInt 8; PyInt 8]) w0.
Proof.
  apply (same_elements_same_call 2 (PyList [PyInt 0; PyInt 0; PyInt 8; PyInt 8])
           (PyTuple [PyInt 0; PyInt 0; PyInt 8; PyInt 8])
           [PyInt 0; PyInt 0; PyInt 8; PyInt 8]
           f0_0 f0_0 f0_0 f0_0 f1_0 PyNone w0); reflexivity.
Defined.

Lemma read_into_buffer_is_its_mglo_witness :
  Framebuffer.read_into 2 (PyObject ClsBuffer 7) PyNone (PyInt 3) (PyInt 0) (PyInt 1)
    (PyStr "f1") (PyInt 0) w1
  = Framebuffer.read_into 2 (PyObject ClsMglo 11) PyNone (PyInt 3) (PyInt 0) (PyInt 1)
      (PyStr "f1") (PyInt 0) w1.
Proof.
  apply (read_into_buffer_is_its_mglo 2 7 (mkBuffer (PyObject ClsMglo 11))
           PyNone (PyInt 3) (PyInt 0) (PyInt 1) (PyStr "f1") (PyInt 0) w1).
  - reflexivity.
  - intros b'. discriminate.
Defined.

(** What crosses for a [Buffer], for a [bytearray], and for a [Buffer] that
    does not exist. *)
Example read_into_cases :
  calls (snd (Framebuffer.read_into 2 (PyObject ClsBuffer 7) PyNone (PyInt 3)
                (PyInt 0) (PyInt 1) (PyStr "f1") (PyInt 0) w1))
  = [(3%positive, Call_read_into (PyObject ClsMglo 11) PyNone (PyInt 3) (PyInt 0)
                    (PyInt 1) (PyStr "f1") (PyInt 0))] /\
  calls (snd (Framebuffer.read_into 2 (PyObject ClsBytearray 9) PyNone (PyInt 3)
                (PyInt 0) (PyInt 1) (PyStr "f1") (PyInt 0) w1))
  = [(3%positive, Call_read_into (PyObject ClsBytearray 9) PyNone (PyInt 3) (PyInt 0)
                    (PyInt 1) (PyStr "f1") (PyInt 0))].
Proof. split; reflexivity. Qed.

Lemma grid_rows_are_axis_lines_witness :
  grid !! 128%nat
  = Some (PyList [PyInt 32; fm32_0; f0_0; PyInt 32; f32_0; f0_0]) /\
  grid !! 129%nat
  = Some (PyList [fm32_0; PyInt 32; f0_0; f32_0; PyInt 32; f0_0]).
Proof. apply (grid_rows_are_axis_lines 65 64). lia. Defined.

End MoreConcrete.
